(** * MatrixAdd / MatrixAddGrad: shallow embedding of matrix_add_op.cc

    The file embeds the two operator registrations (with the shape function of
    the forward operator), the four kernel bodies (CPU and GPU, forward and
    backward) and the three element types the kernels are registered for, and
    proves the properties of the operator pair over that embedding.

    Conventions.
    - A C++ [int] is a [Z] narrowed with [to_int] (two's complement, 32 bit);
      [int64] quantities of the runtime (dimension sizes, element counts) are
      plain [Z], valid tensors keep them below 2^63.
    - A tensor is its shape and its row-major buffer.
    - A kernel runs in [Exec]: it ends normally with a context (whose status
      may be an error set by OP_REQUIRES_OK), or the process is lost to a
      failed CHECK or to an access outside a buffer.
    - Memory handed out by [allocate_output] is not initialised: its contents
      come from the allocator's [residue], about which nothing is known. *)

From Stdlib Require Import ZArith List Lia Bool String.
From Stdlib Require Import Floats.SpecFloat.
From stdpp Require Import base tactics option list numbers gmap strings.

Local Open Scope Z_scope.

(* ================================================================== *)
(** * Machine integers and floating point                              *)
(* ================================================================== *)

(** Conversion of an [int64] to a C++ [int]. *)
Definition to_int (z : Z) : Z := (z + 2 ^ 31) mod 2 ^ 32 - 2 ^ 31.

Definition INT_MIN : Z := - 2 ^ 31.
Definition INT_MAX : Z := 2 ^ 31 - 1.

(** [float] is IEEE binary32 and [double] is IEEE binary64, both over the
    Standard Library's [spec_float] (round to nearest, ties to even; one NaN). *)
Inductive float : Type := Float (x : spec_float).
Inductive double : Type := Double (x : spec_float).

Definition float_val (f : float) : spec_float := let 'Float x := f in x.
Definition double_val (f : double) : spec_float := let 'Double x := f in x.

Definition float_add (x y : float) : float :=
  Float (SFadd 24 128 (float_val x) (float_val y)).

Definition double_add (x y : double) : double :=
  Double (SFadd 53 1024 (double_val x) (double_val y)).

(** [int] to [float]: the nearest binary32 value. *)
Definition int_to_float (z : Z) : float :=
  Float (binary_normalize 24 128 z 0 false).

(** [float] to [double] is exact: the same value with a 53 bit mantissa. *)
Definition float_to_double (x : float) : double :=
  match float_val x with
  | S754_finite s m e =>
      Double (binary_normalize 53 1024 (cond_Zopp s (Zpos m)) e s)
  | v => Double v
  end.

(** The integral part of a finite float, fraction discarded. *)
Definition truncate (x : spec_float) : option Z :=
  match x with
  | S754_zero _ => Some 0
  | S754_finite s m e => Some (cond_Zopp s (Z.shiftl (Zpos m) e))
  | S754_infinity _ | S754_nan => None
  end.

(** [float] to [int]: truncation toward zero.  Where the truncated value is
    not an [int] (or there is none) C++ leaves the result undefined; the
    model takes what the x86 conversion instruction delivers, [INT_MIN]. *)
Definition float_to_int (x : float) : Z :=
  match truncate (float_val x) with
  | Some t => if (INT_MIN <=? t) && (t <=? INT_MAX) then t else INT_MIN
  | None => INT_MIN
  end.

(** [int + int].  Overflow is undefined in C++; the model wraps, as the
    machine addition does. *)
Definition int_add (a b : Z) : Z := to_int (a + b).

(* ================================================================== *)
(** * Element types: [T: realnumbertype], instantiated at int, float, double *)
(* ================================================================== *)

(** What the kernels need of [Dtype]: the zero that [setZero] stores, the sum
    of two elements, and [x + bias_] with the [float] member [bias_], converted
    back to [Dtype] by the assignment to an output element. *)
Class RealNumberType (Dtype : Type) : Type := {
  dt_zero : Dtype;
  dt_add : Dtype -> Dtype -> Dtype;
  dt_add_bias : Dtype -> float -> Dtype
}.

(** [int]: [int + float] is computed in [float] (usual arithmetic
    conversions), the assignment converts back. *)
#[export] Instance int_type : RealNumberType Z := {
  dt_zero := 0;
  dt_add := int_add;
  dt_add_bias x bias := float_to_int (float_add (int_to_float x) bias)
}.

#[export] Instance float_type : RealNumberType float := {
  dt_zero := Float (S754_zero false);
  dt_add := float_add;
  dt_add_bias x bias := float_add x bias
}.

(** [double]: [double + float] is computed in [double]. *)
#[export] Instance double_type : RealNumberType double := {
  dt_zero := Double (S754_zero false);
  dt_add := double_add;
  dt_add_bias x bias := double_add x (float_to_double bias)
}.

(** The expression stored by both forward kernels: [a + b + bias_]. *)
Definition add_with_bias `{RealNumberType Dtype} (bias_ : float) (a b : Dtype) : Dtype :=
  dt_add_bias (dt_add a b) bias_.

(* ================================================================== *)
(** * Status, faults and the execution monad                           *)
(* ================================================================== *)

(** Status codes that occur here.  [InvalidArgument] is what shape inference
    reports (the specification's ShapeMismatch), [ResourceExhausted] what a
    failed allocation reports (its AllocationFailure). *)
Inductive Status : Type := OK | InvalidArgument | ResourceExhausted.

#[export] Instance Status_eq_dec : EqDecision Status.
Proof. solve_decision. Defined.

Definition ok (s : Status) : bool := bool_decide (s = OK).

Inductive Fault : Type :=
| CheckFailure   (* a CHECK of the runtime failed: the process aborts *)
| OutOfBounds.   (* access outside a buffer: undefined behaviour *)

Inductive Exec (A : Type) : Type :=
| Done (a : A)
| Crash (f : Fault).
Arguments Done {A} a.
Arguments Crash {A} f.

Definition bind {A B} (m : Exec A) (k : A -> Exec B) : Exec B :=
  match m with
  | Done a => k a
  | Crash f => Crash f
  end.

Definition exec_map {A B} (f : A -> B) (m : Exec A) : Exec B :=
  match m with
  | Done a => Done (f a)
  | Crash f => Crash f
  end.

Notation "'do' x <- m ; k" := (bind m (fun x => k))
  (at level 10, x pattern, m at level 100, k at level 200).

(** [for (int i = 0; i < n; ++i) body]: the body threads the state [S]; no
    iteration when [n <= 0]. *)
Definition for_loop {S} (n : Z) (body : Z -> S -> Exec S) (s : S) : Exec S :=
  foldl (fun acc i => bind acc (body i)) (Done s) (seqZ 0 n).

(** Raw pointer accesses [p[i]]. *)
Definition load {A} (p : list A) (i : Z) : Exec A :=
  if i <? 0 then Crash OutOfBounds
  else match p !! Z.to_nat i with
       | Some x => Done x
       | None => Crash OutOfBounds
       end.

Definition store {A} (p : list A) (i : Z) (v : A) : Exec (list A) :=
  if (0 <=? i) && (i <? Z.of_nat (length p)) then Done (<[Z.to_nat i := v]> p)
  else Crash OutOfBounds.

(* ================================================================== *)
(** * Tensors, allocator and kernel context                            *)
(* ================================================================== *)

Definition TensorShape : Type := list Z.

(** [TensorShape::num_elements]. *)
Definition num_elements (sh : TensorShape) : Z := foldr Z.mul 1 sh.

(** [TensorShape::dim_size(i)]. *)
Definition dim_size (sh : TensorShape) (i : nat) : Z := nth i sh 0.

(** [TensorShape::AddDim(size)]: the runtime CHECKs [size >= 0]. *)
Definition AddDim (sh : TensorShape) (size : Z) : Exec TensorShape :=
  if size <? 0 then Crash CheckFailure else Done (sh ++ [size]).

Record Tensor (Dtype : Type) : Type := mkTensor {
  shape : TensorShape;
  flat : list Dtype          (* the buffer, row-major *)
}.
Arguments mkTensor {Dtype} shape flat.
Arguments shape {Dtype} _.
Arguments flat {Dtype} _.

(** [Tensor::NumElements]. *)
Definition NumElements {Dtype} (t : Tensor Dtype) : Z := num_elements (shape t).

(** A tensor as the runtime hands it to a kernel: sizes are not negative and
    the buffer holds exactly [NumElements] elements. *)
Definition valid_tensor {Dtype} (t : Tensor Dtype) : Prop :=
  Forall (fun d => 0 <= d) (shape t) /\
  Z.of_nat (length (flat t)) = NumElements t.

(** [Tensor::tensor<Dtype, 4>()]: a rank-4 view; the runtime CHECKs the rank.
    Element access computes the row-major offset from the view's own
    dimensions and does not check it. *)
Record TensorMap4 (Dtype : Type) : Type := mkTensorMap4 {
  dims4 : Z * Z * Z * Z;
  data4 : list Dtype
}.
Arguments mkTensorMap4 {Dtype} dims4 data4.
Arguments dims4 {Dtype} _.
Arguments data4 {Dtype} _.

Definition tensor4 {Dtype} (t : Tensor Dtype) : Exec (TensorMap4 Dtype) :=
  match shape t with
  | [d0; d1; d2; d3] => Done (mkTensorMap4 (d0, d1, d2, d3) (flat t))
  | _ => Crash CheckFailure
  end.

Definition index4 (dims : Z * Z * Z * Z) (b r c d : Z) : Z :=
  let '(_, d1, d2, d3) := dims in ((b * d1 + r) * d2 + c) * d3 + d.

(** The allocator behind [allocate_output]: [avail] elements can still be
    handed out; a new buffer shows whatever [residue] holds from [cursor] on. *)
Record Allocator (Dtype : Type) : Type := mkAllocator {
  avail : Z;
  residue : nat -> Dtype;
  cursor : nat
}.
Arguments mkAllocator {Dtype} avail residue cursor.
Arguments avail {Dtype} _.
Arguments residue {Dtype} _.
Arguments cursor {Dtype} _.

Definition allocate {Dtype} (a : Allocator Dtype) (n : Z)
  : option (list Dtype * Allocator Dtype) :=
  if n <=? avail a then
    Some (map (residue a) (seq (cursor a) (Z.to_nat n)),
          mkAllocator (avail a - n) (residue a) (cursor a + Z.to_nat n)%nat)
  else None.

Record OpKernelContext (Dtype : Type) : Type := mkContext {
  inputs : list (Tensor Dtype);
  outputs : gmap nat (Tensor Dtype);
  status : Status;
  allocator : Allocator Dtype
}.
Arguments mkContext {Dtype} inputs outputs status allocator.
Arguments inputs {Dtype} _.
Arguments outputs {Dtype} _.
Arguments status {Dtype} _.
Arguments allocator {Dtype} _.

(** The context a kernel is started with. *)
Definition start {Dtype} (ins : list (Tensor Dtype)) (a : Allocator Dtype)
  : OpKernelContext Dtype :=
  mkContext ins ∅ OK a.

Section Context_ops.
Context {Dtype : Type} `{RealNumberType Dtype}.

(** [context->input(i)]; the runtime CHECKs the index. *)
Definition input (context : OpKernelContext Dtype) (i : nat) : Exec (Tensor Dtype) :=
  match inputs context !! i with
  | Some t => Done t
  | None => Crash CheckFailure
  end.

(** [context->allocate_output(index, shape, &output)]. *)
Definition allocate_output (index : nat) (sh : TensorShape)
    (context : OpKernelContext Dtype) : Status * OpKernelContext Dtype :=
  match allocate (allocator context) (num_elements sh) with
  | Some (buf, a) =>
      (OK, mkContext (inputs context)
             (<[index := mkTensor sh buf]> (outputs context))
             (status context) a)
  | None => (ResourceExhausted, context)
  end.

(** What OP_REQUIRES_OK does with a status that is not OK, before it
    returns from [Compute]. *)
Definition CtxFailure (s : Status) (context : OpKernelContext Dtype)
  : OpKernelContext Dtype :=
  mkContext (inputs context) (outputs context) s (allocator context).

(** The tensor behind the pointer that [allocate_output] filled in. *)
Definition output_at (index : nat) (context : OpKernelContext Dtype)
  : Exec (Tensor Dtype) :=
  match outputs context !! index with
  | Some t => Done t
  | None => Crash OutOfBounds
  end.

(** The buffer of output [index] after the writes through its pointer. *)
Definition written (index : nat) (buf : list Dtype)
    (context : OpKernelContext Dtype) : OpKernelContext Dtype :=
  mkContext (inputs context)
    (alter (fun t => mkTensor (shape t) buf) index (outputs context))
    (status context) (allocator context).

(** [output->flat<Dtype>().setZero()]. *)
Definition setZero (index : nat) (context : OpKernelContext Dtype)
  : OpKernelContext Dtype :=
  mkContext (inputs context)
    (alter (fun t => mkTensor (shape t) (replicate (length (flat t)) dt_zero))
           index (outputs context))
    (status context) (allocator context).
End Context_ops.

(* ================================================================== *)
(** * The kernels                                                      *)
(* ================================================================== *)

Section Kernels.
Context {Dtype : Type} `{RealNumberType Dtype}.

(** ** Forward pass, CPU: [MatrixAddOp<Device, Dtype>::Compute] *)

(** The statement of the innermost loop (line 122). *)
Definition forward_assign (bias_ : float)
    (matrix_a_tensor matrix_b_tensor : TensorMap4 Dtype)
    (out_dims : Z * Z * Z * Z) (b r c d : Z) (out : list Dtype)
  : Exec (list Dtype) :=
  do x <- load (data4 matrix_a_tensor) (index4 (dims4 matrix_a_tensor) b r c d);
  do y <- load (data4 matrix_b_tensor) (index4 (dims4 matrix_b_tensor) b r c d);
  store out (index4 out_dims b r c d) (add_with_bias bias_ x y).

Definition MatrixAddOp_Compute (bias_ : float) (context : OpKernelContext Dtype)
  : Exec (OpKernelContext Dtype) :=
  do matrix_a <- input context 0;
  do matrix_a_tensor <- tensor4 matrix_a;
  do matrix_b <- input context 1;
  do matrix_b_tensor <- tensor4 matrix_b;
  let B := to_int (dim_size (shape matrix_a) 0) in
  let M := to_int (dim_size (shape matrix_a) 1) in
  let N := to_int (dim_size (shape matrix_a) 2) in
  let D := to_int (dim_size (shape matrix_a) 3) in
  do output_shape <- AddDim [] B;
  do output_shape <- AddDim output_shape M;
  do output_shape <- AddDim output_shape N;
  do output_shape <- AddDim output_shape D;
  let '(s, context) := allocate_output 0 output_shape context in
  if negb (ok s) then Done (CtxFailure s context) else
  do output <- output_at 0 context;
  do out_tensor <- tensor4 output;
  do out <-
    for_loop B (fun b =>
      for_loop M (fun r =>
        for_loop N (fun c =>
          for_loop D (fun d =>
            forward_assign bias_ matrix_a_tensor matrix_b_tensor
                           (dims4 out_tensor) b r c d))))
      (data4 out_tensor);
  Done (written 0 out context).

(** ** Forward pass, GPU: [MatrixAddOp<GPUDevice, Dtype>::Compute] *)

(** Modelled from the spec: [MatrixAddOpForwardCudaKernelLauncher] is
    declared in matrix_add_op.cu.hh and defined in the CUDA source; neither
    is among the sources.  Specification, sections 2 and 6: a device-side
    loop applying [a[i] + b[i] + bias] over a flat element range, given raw
    output and input element pointers, an element count and the bias.  The
    launch is taken at its completion: the buffers after the device loop. *)
Definition MatrixAddOpForwardCudaKernelLauncher
    (top : list Dtype) (N : Z) (inA inB : list Dtype) (bias : float)
  : Exec (list Dtype) :=
  for_loop N (fun i top =>
    do a <- load inA i;
    do b <- load inB i;
    store top i (add_with_bias bias a b)) top.

Definition MatrixAddOp_GPU_Compute (bias_ : float) (context : OpKernelContext Dtype)
  : Exec (OpKernelContext Dtype) :=
  do matrix_a <- input context 0;
  do matrix_b <- input context 1;
  let N := to_int (NumElements matrix_a) in
  let matrix_a_flat := flat matrix_a in
  let matrix_b_flat := flat matrix_b in
  let '(s, context) := allocate_output 0 (shape matrix_a) context in
  if negb (ok s) then Done (CtxFailure s context) else
  do output <- output_at 0 context;
  let out_flat := flat output in
  do top <- MatrixAddOpForwardCudaKernelLauncher out_flat N
              matrix_a_flat matrix_b_flat bias_;
  Done (written 0 top context).

(** ** Backward pass, CPU: [MatrixAddGradOp<Device, Dtype>::Compute] *)

(** Lines 180 to 195: the inputs are fetched, both outputs are allocated
    with the shape of [features] and zeroed.  The result is the context and
    what the fill loop needs: [N] and [topdiff_ptr]; [None] stands for the
    return of OP_REQUIRES_OK. *)
Definition MatrixAddGradOp_allocate (context : OpKernelContext Dtype)
  : Exec (OpKernelContext Dtype * option (Z * list Dtype)) :=
  do top_diff <- input context 0;
  do features <- input context 1;
  let N := to_int (NumElements top_diff) in
  let topdiff_ptr := flat top_diff in
  let '(s, context) := allocate_output 0 (shape features) context in
  if negb (ok s) then Done (CtxFailure s context, None) else
  let context := setZero 0 context in
  let '(s, context) := allocate_output 1 (shape features) context in
  if negb (ok s) then Done (CtxFailure s context, None) else
  let context := setZero 1 context in
  Done (context, Some (N, topdiff_ptr)).

(** Lines 197 to 200, over the two output buffers. *)
Definition MatrixAddGradOp_fill (N : Z) (topdiff_ptr : list Dtype)
    (grads : list Dtype * list Dtype) : Exec (list Dtype * list Dtype) :=
  for_loop N (fun i '(matrix_a_grad_ptr, matrix_b_grad_ptr) =>
    do x <- load topdiff_ptr i;
    do matrix_a_grad_ptr <- store matrix_a_grad_ptr i x;
    do y <- load topdiff_ptr i;
    do matrix_b_grad_ptr <- store matrix_b_grad_ptr i y;
    Done (matrix_a_grad_ptr, matrix_b_grad_ptr)) grads.

Definition MatrixAddGradOp_Compute (context : OpKernelContext Dtype)
  : Exec (OpKernelContext Dtype) :=
  do prepared <- MatrixAddGradOp_allocate context;
  match prepared with
  | (context, None) => Done context
  | (context, Some (N, topdiff_ptr)) =>
      do matrix_a_grad <- output_at 0 context;
      do matrix_b_grad <- output_at 1 context;
      do grads <- MatrixAddGradOp_fill N topdiff_ptr
                    (flat matrix_a_grad, flat matrix_b_grad);
      Done (written 1 (snd grads) (written 0 (fst grads) context))
  end.

(** ** Backward pass, GPU: [MatrixAddGradOp<GPUDevice, Dtype>::Compute] *)

(** Modelled from the spec: [MatrixAddOpBackwardCudaKernelLauncher] is
    declared in matrix_add_op.cu.hh and defined in the CUDA source; neither
    is among the sources.  Specification, sections 2 and 4.3: the gradient
    pass-through over a flat element range, taking both input tensors'
    pointers (unused) and writing both gradient outputs in one launch. *)
Definition MatrixAddOpBackwardCudaKernelLauncher
    (top_diff : list Dtype) (N : Z) (inA inB : list Dtype)
    (grad_matrixA grad_matrixB : list Dtype)
  : Exec (list Dtype * list Dtype) :=
  for_loop N (fun i '(grad_matrixA, grad_matrixB) =>
    do x <- load top_diff i;
    do grad_matrixA <- store grad_matrixA i x;
    do y <- load top_diff i;
    do grad_matrixB <- store grad_matrixB i y;
    Done (grad_matrixA, grad_matrixB)) (grad_matrixA, grad_matrixB).

(** Lines 217 to 226: inputs and allocations, up to the launch. *)
Definition MatrixAddGradOp_GPU_allocate (context : OpKernelContext Dtype)
  : Exec (OpKernelContext Dtype * option (Z * Tensor Dtype * Tensor Dtype * Tensor Dtype)) :=
  do top_diff <- input context 0;
  do matrix_a <- input context 1;
  do matrix_b <- input context 2;
  let N := to_int (num_elements (shape top_diff)) in
  let '(s, context) := allocate_output 0 (shape matrix_a) context in
  if negb (ok s) then Done (CtxFailure s context, None) else
  let '(s, context) := allocate_output 1 (shape matrix_b) context in
  if negb (ok s) then Done (CtxFailure s context, None) else
  Done (context, Some (N, top_diff, matrix_a, matrix_b)).

Definition MatrixAddGradOp_GPU_Compute (context : OpKernelContext Dtype)
  : Exec (OpKernelContext Dtype) :=
  do prepared <- MatrixAddGradOp_GPU_allocate context;
  match prepared with
  | (context, None) => Done context
  | (context, Some (N, top_diff, matrix_a, matrix_b)) =>
      do grad_matrix_a <- output_at 0 context;
      do grad_matrix_b <- output_at 1 context;
      do grads <- MatrixAddOpBackwardCudaKernelLauncher (flat top_diff) N
                    (flat matrix_a) (flat matrix_b)
                    (flat grad_matrix_a) (flat grad_matrix_b);
      Done (written 1 (snd grads) (written 0 (fst grads) context))
  end.
End Kernels.

(* ================================================================== *)
(** * Shape inference and operator registration                        *)
(* ================================================================== *)

(** The runtime's shape descriptors at graph construction: a dimension is a
    size or unknown ([kUnknownDim]), a shape is a list of dimensions or of
    unknown rank. *)
Definition DimensionHandle : Type := Z.
Definition kUnknownDim : DimensionHandle := -1.

Inductive ShapeHandle : Type :=
| UnknownShape
| MakeShape (dims : list DimensionHandle).

#[export] Instance ShapeHandle_eq_dec : EqDecision ShapeHandle.
Proof. solve_decision. Defined.

Record InferenceContext : Type := mkInference {
  ic_inputs : list ShapeHandle;
  ic_outputs : gmap nat ShapeHandle
}.

Definition ic_input (c : InferenceContext) (i : nat) : ShapeHandle :=
  nth i (ic_inputs c) UnknownShape.

Definition set_output (i : nat) (s : ShapeHandle) (c : InferenceContext)
  : InferenceContext :=
  mkInference (ic_inputs c) (<[i := s]> (ic_outputs c)).

(** [InferenceContext::Dim]: unknown for a shape of unknown rank. *)
Definition Dim (s : ShapeHandle) (i : nat) : DimensionHandle :=
  match s with
  | UnknownShape => kUnknownDim
  | MakeShape dims => nth i dims kUnknownDim
  end.

(** Merging two dimensions: an unknown one gives way, two known ones must
    be equal. *)
Definition merge_dim (d0 d1 : DimensionHandle) : option DimensionHandle :=
  if d0 =? kUnknownDim then Some d1
  else if d1 =? kUnknownDim then Some d0
  else if d0 =? d1 then Some d0
  else None.

Fixpoint merge_dims (ds0 ds1 : list DimensionHandle) : option (list DimensionHandle) :=
  match ds0, ds1 with
  | [], [] => Some []
  | d0 :: ds0, d1 :: ds1 =>
      match merge_dim d0 d1, merge_dims ds0 ds1 with
      | Some d, Some ds => Some (d :: ds)
      | _, _ => None
      end
  | _, _ => None
  end.

(** [InferenceContext::Merge]. *)
Definition Merge (s0 s1 : ShapeHandle) : Status * ShapeHandle :=
  match s0, s1 with
  | _, UnknownShape => (OK, s0)
  | UnknownShape, _ => (OK, s1)
  | MakeShape ds0, MakeShape ds1 =>
      match merge_dims ds0 ds1 with
      | Some ds => (OK, MakeShape ds)
      | None => (InvalidArgument, UnknownShape)
      end
  end.

(** [InferenceContext::WithRank]: a shape of unknown rank is taken to have
    the rank asked for, with unknown dimensions. *)
Definition WithRank (s : ShapeHandle) (rank : nat) : Status * ShapeHandle :=
  match s with
  | UnknownShape => (OK, MakeShape (replicate rank kUnknownDim))
  | MakeShape dims =>
      if bool_decide (length dims = rank) then (OK, s)
      else (InvalidArgument, UnknownShape)
  end.

(** [shape_inference::UnchangedShape] as the file defines it (not used by
    either registration). *)
Definition UnchangedShape (c : InferenceContext) : Status * InferenceContext :=
  (OK, set_output 0 (ic_input c 0) c).

(** The shape function of "MatrixAdd" (lines 25 to 52).  TF_RETURN_IF_ERROR
    returns the status and leaves the context as it is.  The attribute read
    at the end has its status discarded and changes nothing. *)
Definition MatrixAdd_shape_fn (c : InferenceContext) : Status * InferenceContext :=
  let '(s, shape_hnd) := WithRank (ic_input c 0) 4 in
  if negb (ok s) then (s, c) else
  let '(s, shape_hnd) := WithRank (ic_input c 1) 4 in
  if negb (ok s) then (s, c) else
  let matrix_a_shape := ic_input c 0 in
  let matrix_b_shape := ic_input c 1 in
  let '(s, matrix_a_shape) := Merge matrix_a_shape matrix_b_shape in
  if negb (ok s) then (s, c) else
  let B := Dim (ic_input c 0) 0 in
  let M := Dim (ic_input c 0) 1 in
  let N := Dim (ic_input c 0) 2 in
  let D := Dim (ic_input c 0) 3 in
  (OK, set_output 0 (MakeShape [B; M; N; D]) c).

(** ** REGISTER_OP *)

Inductive DataType : Type := DT_INT32 | DT_FLOAT | DT_DOUBLE.
Inductive DeviceType : Type := DEVICE_CPU | DEVICE_GPU.

Record OpRegistration : Type := mkOp {
  op_name : string;
  op_attrs : list string;
  op_inputs : list string;
  op_outputs : list string;
  op_shape_fn : option (InferenceContext -> Status * InferenceContext)
}.

Definition MatrixAdd : OpRegistration :=
  mkOp "MatrixAdd"
       ["bias: float"; "T: realnumbertype"]
       ["matrix_a: T"; "matrix_b: T"]
       ["output: T"]
       (Some MatrixAdd_shape_fn).

Definition MatrixAddGrad : OpRegistration :=
  mkOp "MatrixAddGrad"
       ["bias: float"; "T: realnumbertype"]
       ["gradients: T"; "matrix_a: T"; "matrix_b: T"]
       ["grad_matrix_a: T"; "grad_matrix_b: T"]
       None.

(** Shape inference of a node at graph construction, as the host runtime
    runs it: the registered shape function on the input shapes; an operator
    registered without one gets outputs of unknown shape and no check. *)
Definition infer_shapes (op : OpRegistration) (input_shapes : list ShapeHandle)
  : Status * InferenceContext :=
  let c := mkInference input_shapes ∅ in
  match op_shape_fn op with
  | Some fn => fn c
  | None =>
      (OK, mkInference input_shapes
             (list_to_map (imap (fun i _ => (i, UnknownShape)) (op_outputs op))))
  end.

(** REGISTER_MYCOPY_KERNELS(int), (float), (double): the kernel table. *)
Definition REGISTER_MYCOPY_KERNELS (type : DataType)
  : list (string * DeviceType * DataType) :=
  [ ("MatrixAdd"%string, DEVICE_CPU, type);
    ("MatrixAdd"%string, DEVICE_GPU, type);
    ("MatrixAddGrad"%string, DEVICE_CPU, type);
    ("MatrixAddGrad"%string, DEVICE_GPU, type) ].

Definition kernel_registry : list (string * DeviceType * DataType) :=
  REGISTER_MYCOPY_KERNELS DT_INT32 ++
  REGISTER_MYCOPY_KERNELS DT_FLOAT ++
  REGISTER_MYCOPY_KERNELS DT_DOUBLE.

(** The static shape of a tensor that is at hand: fully known. *)
Definition shape_of {Dtype} (t : Tensor Dtype) : ShapeHandle := MakeShape (shape t).

(** The forward operator as the host runtime drives it (specification,
    section 2): the node's shapes are validated at graph construction; a
    node that fails there never gets a kernel context ([inl]), one that
    passes has its kernel run ([inr]). *)
Definition run_MatrixAdd {Dtype} `{RealNumberType Dtype}
    (bias_ : float) (matrix_a matrix_b : Tensor Dtype) (a : Allocator Dtype)
  : Status + Exec (OpKernelContext Dtype) :=
  match infer_shapes MatrixAdd [shape_of matrix_a; shape_of matrix_b] with
  | (OK, _) => inr (MatrixAddOp_Compute bias_ (start [matrix_a; matrix_b] a))
  | (s, _) => inl s
  end.

(* ================================================================== *)
(** * Vocabulary of the statements                                     *)
(* ================================================================== *)

(** [out] is [init] with its first [k] elements replaced by those of
    [spec]. *)
Definition filled {A} (spec init : list A) (k : Z) (out : list A) : Prop :=
  out = take (Z.to_nat k) spec ++ drop (Z.to_nat k) init.

(** Two executions agree up to [R]: both end normally in related states, or
    both are lost. *)
Definition agree {S} (R : S -> S -> Prop) (x y : Exec S) : Prop :=
  match x, y with
  | Done s, Done t => R s t
  | Crash _, Crash _ => True
  | _, _ => False
  end.

(** Two buffers of [L] elements with the same first [k] elements. *)
Definition same_prefix {A} (L : nat) (k : Z) (o1 o2 : list A) : Prop :=
  length o1 = L /\ length o2 = L /\
  take (Z.to_nat k) o1 = take (Z.to_nat k) o2.

(** Shapes whose sizes are C++ [int]s. *)
Definition int_sized (sh : TensorShape) : Prop := Forall (fun d => d < 2 ^ 31) sh.

(** Shapes all of whose sizes are known. *)
Definition known_dims (ds : list DimensionHandle) : Prop := Forall (fun d => 0 <= d) ds.

Section Vocabulary.
Context {Dtype : Type} `{RealNumberType Dtype}.
Implicit Types (G A B : Tensor Dtype) (al : Allocator Dtype).

(** The forward result, element by element. *)
Definition sum_with_bias (bias_ : float) (xs ys : list Dtype) : list Dtype :=
  zip_with (add_with_bias bias_) xs ys.

(** Two valid tensors of one rank-4 shape whose sizes are [int]s. *)
Definition valid_inputs A B : Prop :=
  valid_tensor A /\ valid_tensor B /\
  length (shape A) = 4%nat /\ shape B = shape A /\ int_sized (shape A).

(** The allocator after [n] elements were handed out. *)
Definition taken al (n : Z) : Allocator Dtype :=
  mkAllocator (avail al - n) (residue al) (cursor al + Z.to_nat n)%nat.

(** The output tensor of the forward operator. *)
Definition forward_output bias_ A B : Tensor Dtype :=
  mkTensor (shape A) (sum_with_bias bias_ (flat A) (flat B)).

(** What [setZero] leaves in a buffer of [n] elements. *)
Definition zeros (n : nat) : list Dtype := replicate n dt_zero.

(** What a buffer of [n] elements shows when [allocate_output] returns. *)
Definition fresh al (n : Z) : list Dtype :=
  map (residue al) (seq (cursor al) (Z.to_nat n)).

(** The gradient output: [G]'s elements in a tensor of [A]'s shape, zero
    where [G] has none. *)
Definition grad_output G A : Tensor Dtype :=
  mkTensor (shape A)
    (flat G ++ zeros (Z.to_nat (NumElements A) - length (flat G))).

(** An output of [A]'s shape as [setZero] leaves it. *)
Definition zero_output A : Tensor Dtype :=
  mkTensor (shape A) (zeros (Z.to_nat (NumElements A))).

(** A kernel whose outputs, when it ends with status OK, are the same
    whatever the allocator's memory held. *)
Definition deterministic
    (Compute : OpKernelContext Dtype -> Exec (OpKernelContext Dtype)) : Prop :=
  forall ins al1 al2 c1 c2,
    Compute (start ins al1) = Done c1 ->
    Compute (start ins al2) = Done c2 ->
    status c1 = OK -> status c2 = OK ->
    outputs c1 = outputs c2.
End Vocabulary.

(** Inputs at which the theorems are instantiated. *)
Definition wA : Tensor Z := mkTensor [1; 1; 1; 3] [1; 2; 3].
Definition wB : Tensor Z := mkTensor [1; 1; 1; 3] [10; 20; 30].
Definition wG : Tensor Z := mkTensor [1; 1; 1; 3] [5; 6; 7].
Definition wal : Allocator Z := mkAllocator 100 (fun _ => 7) 0.

(* ================================================================== *)
(** * Vocabulary of the further properties                             *)
(* ================================================================== *)

(** A kernel that leaves its inputs alone and whose only status besides OK
    is the failed allocation. *)
Definition only_allocation_fails {Dtype}
    (Compute : OpKernelContext Dtype -> Exec (OpKernelContext Dtype)) : Prop :=
  forall ins al c,
    Compute (start ins al) = Done c ->
    inputs c = ins /\ (status c = OK \/ status c = ResourceExhausted).

(** Two dimensions that can be the same size: one is unknown, or they are
    equal. *)
Definition compatible_dim (d0 d1 : DimensionHandle) : Prop :=
  d0 = kUnknownDim \/ d1 = kUnknownDim \/ d0 = d1.

(** A shape that can be of rank [n]: its rank is unknown, or is [n]. *)
Definition rank_fits (s : ShapeHandle) (n : nat) : Prop :=
  match s with
  | UnknownShape => True
  | MakeShape dims => length dims = n
  end.

(** Two shapes that can be the same: one is of unknown rank, or they are
    compatible dimension by dimension. *)
Definition compatible_shapes (s0 s1 : ShapeHandle) : Prop :=
  match s0, s1 with
  | MakeShape ds0, MakeShape ds1 => Forall2 compatible_dim ds0 ds1
  | _, _ => True
  end.

(** What the shape function of "MatrixAdd" accepts. *)
Definition accepted (s0 s1 : ShapeHandle) : Prop :=
  rank_fits s0 4 /\ rank_fits s1 4 /\ compatible_shapes s0 s1.

#[export] Instance compatible_dim_dec d0 d1 : Decision (compatible_dim d0 d1).
Proof. unfold compatible_dim. apply _. Defined.

#[export] Instance accepted_dec s0 s1 : Decision (accepted s0 s1).
Proof.
  unfold accepted, rank_fits, compatible_shapes.
  destruct s0, s1; apply _.
Defined.

#[export] Instance DataType_eq_dec : EqDecision DataType.
Proof. solve_decision. Defined.

#[export] Instance DeviceType_eq_dec : EqDecision DeviceType.
Proof. solve_decision. Defined.

(** How many kernels the table holds for an operator name, a device and an
    element type. *)
Definition registrations (name : string) (dev : DeviceType) (ty : DataType) : nat :=
  length (filter (fun e => e = (name, dev, ty)) kernel_registry).

(** An element type for which the CPU forward kernel gives the same outputs
    with its two inputs exchanged. *)
Definition inputs_exchangeable (Dtype : Type) `{RealNumberType Dtype} : Prop :=
  forall bias_ (A B : Tensor Dtype) (al : Allocator Dtype),
    valid_inputs A B ->
    exec_map outputs (MatrixAddOp_Compute bias_ (start [A; B] al)) =
    exec_map outputs (MatrixAddOp_Compute bias_ (start [B; A] al)).

(** Further inputs at which the theorems are instantiated. *)
Definition wR3 : Tensor Z := mkTensor [1; 1; 3] [1; 2; 3].
Definition wHuge : Tensor Z := mkTensor [2147483648; 0; 1; 1] [].
Definition wB2 : Tensor Z := mkTensor [2; 1; 1; 3] [10; 20; 30; 40; 50; 60].
Definition wG2 : Tensor Z := mkTensor [1; 1; 1; 2] [5; 6].
Definition wE : Tensor Z := mkTensor [1; 0; 1; 3] [].

(** Validity of a concrete input, by evaluation. *)
Ltac solve_valid :=
  unfold valid_inputs, valid_tensor, int_sized, known_dims, NumElements; simpl;
  repeat split; try reflexivity; try lia;
  repeat first [apply Forall_nil_2 | apply Forall_cons_2; [lia|]].

(* ================================================================== *)
(** * Loops and raw accesses                                           *)
(* ================================================================== *)

Section Loops.
Context {S : Type}.
Implicit Types (body : Z -> S -> Exec S) (s : S).

Lemma for_loop_nonpos n body s : n <= 0 -> for_loop n body s = Done s.
Proof. intros Hn. unfold for_loop. by rewrite seqZ_nil. Qed.

Lemma for_loop_step n body s :
  0 <= n -> for_loop (n + 1) body s = bind (for_loop n body s) (body n).
Proof.
  intros Hn. unfold for_loop.
  rewrite seqZ_app, foldl_app by lia.
  rewrite (seqZ_cons _ 1), (seqZ_nil _ (Z.pred 1)) by lia. done.
Qed.

(** The invariant rule: every iteration runs and re-establishes [I]. *)
Lemma for_loop_inv (I : Z -> S -> Prop) n body s :
  0 <= n ->
  I 0 s ->
  (forall i t, 0 <= i < n -> I i t -> exists t', body i t = Done t' /\ I (i + 1) t') ->
  exists s', for_loop n body s = Done s' /\ I n s'.
Proof.
  intros Hn H0 Hstep.
  assert (forall k, 0 <= k -> k <= n ->
            exists s', for_loop k body s = Done s' /\ I k s') as Hall.
  { intros k Hk. pattern k. apply natlike_ind; [| |exact Hk].
    - intros _. exists s. by rewrite for_loop_nonpos.
    - intros j Hj IH Hle. destruct IH as (t & Ht & HI); [lia|].
      destruct (Hstep j t) as (t' & Hb & HI'); [lia|done|].
      exists t'. unfold Z.succ. rewrite for_loop_step, Ht by lia. done. }
  apply Hall; lia.
Qed.

Lemma foldl_crash (l : list Z) body f :
  foldl (fun acc i => bind acc (body i)) (Crash f) l = Crash f.
Proof. induction l; simpl; auto. Qed.

(** The first iteration that faults ends the loop with its fault. *)
Lemma for_loop_crash n k body s t f :
  0 <= k < n ->
  for_loop k body s = Done t ->
  body k t = Crash f ->
  for_loop n body s = Crash f.
Proof.
  intros Hk Hpre Hb. unfold for_loop in *.
  replace n with (k + (n - k)) by lia.
  rewrite seqZ_app, foldl_app, Hpre by lia.
  rewrite (seqZ_cons _ (n - k)) by lia. rewrite Z.add_0_l. simpl.
  rewrite Hb. apply foldl_crash.
Qed.
End Loops.

Section Accesses.
Context {A : Type}.
Implicit Types (p : list A).

Lemma load_Done p i x :
  0 <= i -> p !! Z.to_nat i = Some x -> load p i = Done x.
Proof.
  intros Hi Hx. unfold load.
  destruct (Z.ltb_spec i 0); [lia|]. by rewrite Hx.
Qed.

Lemma store_Done p i v :
  0 <= i < Z.of_nat (length p) -> store p i v = Done (<[Z.to_nat i := v]> p).
Proof.
  intros Hi. unfold store.
  destruct (Z.leb_spec 0 i); [|lia].
  destruct (Z.ltb_spec i (Z.of_nat (length p))); [done|lia].
Qed.

Lemma store_Crash p i v :
  Z.of_nat (length p) <= i -> store p i v = Crash OutOfBounds.
Proof.
  intros Hi. unfold store.
  destruct (Z.ltb_spec i (Z.of_nat (length p))); [lia|].
  by rewrite andb_false_r.
Qed.
End Accesses.

Lemma to_int_id z : 0 <= z < 2 ^ 31 -> to_int z = z.
Proof. intros Hz. unfold to_int. rewrite Z.mod_small; lia. Qed.

Lemma num_elements_nonneg sh : Forall (fun d => 0 <= d) sh -> 0 <= num_elements sh.
Proof.
  unfold num_elements.
  induction 1 as [|d sh Hd _ IH]; simpl; [lia|nia].
Qed.

(* ================================================================== *)
(** * Buffers filled front to back                                     *)
(* ================================================================== *)

Section Fill.
Context {A : Type}.
Implicit Types (spec init out : list A).

Lemma filled_start spec init : filled spec init 0 init.
Proof. unfold filled. simpl. by rewrite drop_0. Qed.

Lemma filled_length spec init k out :
  0 <= k <= Z.of_nat (length spec) -> (length spec <= length init)%nat ->
  filled spec init k out -> length out = length init.
Proof.
  intros Hk Hl ->. rewrite length_app, length_take, length_drop. lia.
Qed.

Lemma filled_store spec init k out v :
  0 <= k -> (length spec <= length init)%nat ->
  spec !! Z.to_nat k = Some v ->
  filled spec init k out ->
  store out k v = Done (<[Z.to_nat k := v]> out) /\
  filled spec init (k + 1) (<[Z.to_nat k := v]> out).
Proof.
  intros Hk Hl Hv Hout.
  pose proof (lookup_lt_Some _ _ _ Hv) as Hlt.
  split.
  - apply store_Done.
    rewrite (filled_length spec init k out); [lia|lia|done|done].
  - unfold filled in *. subst out.
    destruct (lookup_lt_is_Some_2 init (Z.to_nat k)) as [w Hw]; [lia|].
    rewrite Z2Nat.inj_add by lia. change (Z.to_nat 1) with 1%nat.
    rewrite Nat.add_1_r, (take_S_r _ _ _ Hv), (drop_S _ _ _ Hw).
    rewrite insert_app_r_alt by (rewrite length_take; lia).
    rewrite length_take, Nat.min_l, Nat.sub_diag by lia. simpl.
    by rewrite <- app_assoc.
Qed.

Lemma filled_end spec init out :
  filled spec init (Z.of_nat (length spec)) out ->
  out = spec ++ drop (length spec) init.
Proof. unfold filled. rewrite Nat2Z.id, take_ge by lia. done. Qed.
End Fill.

Lemma index4_range d0 d1 d2 d3 b r c d :
  0 <= b < d0 -> 0 <= r < d1 -> 0 <= c < d2 -> 0 <= d < d3 ->
  0 <= index4 (d0, d1, d2, d3) b r c d < d0 * d1 * d2 * d3.
Proof.
  intros Hb Hr Hc Hd. unfold index4.
  assert (0 <= b * d1 + r <= d0 * d1 - 1) as H1 by nia.
  assert (0 <= (b * d1 + r) * d2 + c <= d0 * d1 * d2 - 1) as H2 by nia.
  nia.
Qed.

(* ================================================================== *)
(** * The forward kernels compute the element-wise sum                 *)
(* ================================================================== *)

Section Forward.
Context {Dtype : Type} `{RealNumberType Dtype}.
Implicit Types (A B : Tensor Dtype) (al : Allocator Dtype).

Lemma forward_assign_filled bias_ dims xs ys init b r c d out :
  let spec := sum_with_bias bias_ xs ys in
  let k := index4 dims b r c d in
  0 <= k < Z.of_nat (length init) ->
  length xs = length init -> length ys = length init ->
  filled spec init k out ->
  exists out',
    forward_assign bias_ (mkTensorMap4 dims xs) (mkTensorMap4 dims ys) dims b r c d out
      = Done out' /\
    filled spec init (k + 1) out'.
Proof.
  intros spec k Hk Hxs Hys Hout. unfold forward_assign. simpl. fold k.
  destruct (lookup_lt_is_Some_2 xs (Z.to_nat k)) as [x Hx]; [lia|].
  destruct (lookup_lt_is_Some_2 ys (Z.to_nat k)) as [y Hy]; [lia|].
  rewrite (load_Done _ _ _ (proj1 Hk) Hx), (load_Done _ _ _ (proj1 Hk) Hy). simpl.
  assert (spec !! Z.to_nat k = Some (add_with_bias bias_ x y)) as Hv.
  { unfold spec, sum_with_bias. rewrite lookup_zip_with, Hx. simpl. by rewrite Hy. }
  assert (length spec <= length init)%nat as Hl.
  { unfold spec, sum_with_bias. rewrite length_zip_with. lia. }
  destruct (filled_store spec init k out _ (proj1 Hk) Hl Hv Hout) as [-> Hf].
  eauto.
Qed.

(** The four nested loops of the CPU kernel. *)
Lemma forward_loops bias_ d0 d1 d2 d3 xs ys init :
  let dims := (d0, d1, d2, d3) in
  0 <= d0 -> 0 <= d1 -> 0 <= d2 -> 0 <= d3 ->
  Z.of_nat (length init) = d0 * d1 * d2 * d3 ->
  length xs = length init -> length ys = length init ->
  for_loop d0 (fun b =>
    for_loop d1 (fun r =>
      for_loop d2 (fun c =>
        for_loop d3 (fun d =>
          forward_assign bias_ (mkTensorMap4 dims xs) (mkTensorMap4 dims ys)
                         dims b r c d)))) init
  = Done (sum_with_bias bias_ xs ys).
Proof.
  intros dims H0 H1 H2 H3 HL Hxs Hys.
  set (spec := sum_with_bias bias_ xs ys).
  destruct (for_loop_inv (fun b => filled spec init (index4 dims b 0 0 0)) d0
              (fun b => for_loop d1 (fun r => for_loop d2 (fun c => for_loop d3 (fun d =>
                 forward_assign bias_ (mkTensorMap4 dims xs) (mkTensorMap4 dims ys)
                                dims b r c d)))) init H0)
    as (out & Hrun & Hout).
  - apply filled_start.
  - intros b t Hb Ht.
    replace (index4 dims (b + 1) 0 0 0) with (index4 dims b d1 0 0)
      by (unfold index4, dims; ring).
    apply (for_loop_inv (fun r => filled spec init (index4 dims b r 0 0))); [done|done|].
    intros r t1 Hr Ht1.
    replace (index4 dims b (r + 1) 0 0) with (index4 dims b r d2 0)
      by (unfold index4, dims; ring).
    apply (for_loop_inv (fun c => filled spec init (index4 dims b r c 0))); [done|done|].
    intros c t2 Hc Ht2.
    replace (index4 dims b r (c + 1) 0) with (index4 dims b r c d3)
      by (unfold index4, dims; ring).
    apply (for_loop_inv (fun d => filled spec init (index4 dims b r c d))); [done|done|].
    intros d t3 Hd Ht3.
    replace (index4 dims b r c (d + 1)) with (index4 dims b r c d + 1)
      by (unfold index4, dims; ring).
    apply forward_assign_filled; [|done|done|done].
    rewrite HL. by apply index4_range.
  - rewrite Hrun. f_equal.
    assert (length spec = length init) as Hl.
    { unfold spec, sum_with_bias. rewrite length_zip_with. lia. }
    replace (index4 dims d0 0 0 0) with (Z.of_nat (length spec)) in Hout
      by (rewrite Hl, HL; unfold index4, dims; ring).
    apply filled_end in Hout. rewrite Hout, Hl, drop_all. apply app_nil_r.
Qed.

(** The single sweep of the device kernel. *)
Lemma forward_sweep bias_ N xs ys init :
  N = Z.of_nat (length init) ->
  length xs = length init -> length ys = length init ->
  MatrixAddOpForwardCudaKernelLauncher init N xs ys bias_
  = Done (sum_with_bias bias_ xs ys).
Proof.
  intros HN Hxs Hys. unfold MatrixAddOpForwardCudaKernelLauncher.
  set (spec := sum_with_bias bias_ xs ys).
  assert (length spec = length init) as Hl.
  { unfold spec, sum_with_bias. rewrite length_zip_with. lia. }
  destruct (for_loop_inv (fun i => filled spec init i) N
              (fun i top => do a <- load xs i; do b <- load ys i;
                            store top i (add_with_bias bias_ a b)) init)
    as (out & Hrun & Hout); [lia|apply filled_start| |].
  - intros i t Hi Ht.
    destruct (forward_assign_filled bias_ (1, 1, 1, 1) xs ys init 0 0 0 i t)
      as (t' & Hrun & Hf); simpl; try done; try lia.
    unfold forward_assign in Hrun. simpl in Hrun, Hf. eauto.
  - rewrite Hrun. f_equal.
    rewrite HN, <- Hl in Hout.
    apply filled_end in Hout. rewrite Hout, Hl, drop_all. apply app_nil_r.
Qed.
(** ** The kernels on inputs that meet the operator's contract *)

Lemma allocate_output_OK index sh (context : OpKernelContext Dtype) :
  num_elements sh <= avail (allocator context) ->
  allocate_output index sh context =
    (OK, mkContext (inputs context)
           (<[index := mkTensor sh (map (residue (allocator context))
                                        (seq (cursor (allocator context))
                                             (Z.to_nat (num_elements sh))))]>
              (outputs context))
           (status context) (taken (allocator context) (num_elements sh))).
Proof.
  intros Hn. unfold allocate_output, allocate.
  destruct (Z.leb_spec (num_elements sh) (avail (allocator context))); [done|lia].
Qed.

Lemma allocate_output_exhausted index sh (context : OpKernelContext Dtype) :
  avail (allocator context) < num_elements sh ->
  allocate_output index sh context = (ResourceExhausted, context).
Proof.
  intros Hn. unfold allocate_output, allocate.
  destruct (Z.leb_spec (num_elements sh) (avail (allocator context))); [lia|done].
Qed.

Lemma valid_inputs_dims A B :
  valid_inputs A B ->
  exists d0 d1 d2 d3,
    shape A = [d0; d1; d2; d3] /\
    (0 <= d0 < 2 ^ 31) /\ (0 <= d1 < 2 ^ 31) /\ (0 <= d2 < 2 ^ 31) /\ (0 <= d3 < 2 ^ 31) /\
    Z.of_nat (length (flat A)) = d0 * d1 * d2 * d3 /\
    length (flat B) = length (flat A).
Proof.
  intros ((HA & HlA) & (HB & HlB) & Hrank & Hsh & Hint).
  unfold NumElements in *. rewrite Hsh in HlB.
  destruct (shape A) as [|d0 [|d1 [|d2 [|d3 [|]]]]]; try discriminate.
  exists d0, d1, d2, d3. unfold int_sized in Hint.
  repeat match goal with
         | Hf : Forall _ (_ :: _) |- _ => apply Forall_cons in Hf; destruct Hf
         end.
  unfold num_elements in *; simpl in *.
  repeat split; try lia.
Qed.

Lemma MatrixAddOp_Compute_OK bias_ A B al :
  valid_inputs A B -> NumElements A <= avail al ->
  MatrixAddOp_Compute bias_ (start [A; B] al) =
    Done (mkContext [A; B] {[0%nat := forward_output bias_ A B]} OK
                    (taken al (NumElements A))).
Proof.
  intros Hv Hal.
  destruct (valid_inputs_dims A B Hv) as (d0 & d1 & d2 & d3 & HsA & H0 & H1 & H2 & H3 & HL & HlB).
  destruct Hv as (_ & _ & _ & HsB & _).
  unfold MatrixAddOp_Compute, input, tensor4. simpl.
  rewrite HsB, HsA. unfold dim_size. simpl.
  rewrite !to_int_id by lia.
  unfold AddDim.
  destruct (Z.ltb_spec d0 0); [lia|]. destruct (Z.ltb_spec d1 0); [lia|].
  destruct (Z.ltb_spec d2 0); [lia|]. destruct (Z.ltb_spec d3 0); [lia|]. simpl.
  unfold NumElements in Hal. rewrite HsA in Hal.
  rewrite allocate_output_OK by done. simpl.
  unfold output_at. simpl. rewrite lookup_insert_eq. simpl.
  rewrite forward_loops; try lia.
  - simpl. unfold written. simpl. rewrite alter_insert_eq. simpl.
    unfold forward_output, NumElements. rewrite HsA. done.
  - rewrite length_map, length_seq. unfold num_elements. simpl. lia.
  - rewrite length_map, length_seq. unfold num_elements. simpl. lia.
  - rewrite length_map, length_seq. unfold num_elements. simpl. lia.
Qed.

Lemma MatrixAddOp_Compute_exhausted bias_ A B al :
  valid_inputs A B -> avail al < NumElements A ->
  MatrixAddOp_Compute bias_ (start [A; B] al) =
    Done (mkContext [A; B] ∅ ResourceExhausted al).
Proof.
  intros Hv Hal.
  destruct (valid_inputs_dims A B Hv) as (d0 & d1 & d2 & d3 & HsA & H0 & H1 & H2 & H3 & HL & HlB).
  destruct Hv as (_ & _ & _ & HsB & _).
  unfold MatrixAddOp_Compute, input, tensor4. simpl.
  rewrite HsB, HsA. unfold dim_size. simpl.
  rewrite !to_int_id by lia.
  unfold AddDim.
  destruct (Z.ltb_spec d0 0); [lia|]. destruct (Z.ltb_spec d1 0); [lia|].
  destruct (Z.ltb_spec d2 0); [lia|]. destruct (Z.ltb_spec d3 0); [lia|]. simpl.
  unfold NumElements in Hal. rewrite HsA in Hal.
  rewrite allocate_output_exhausted by done. done.
Qed.

Lemma MatrixAddOp_GPU_Compute_OK bias_ A B al :
  valid_inputs A B -> NumElements A < 2 ^ 31 -> NumElements A <= avail al ->
  MatrixAddOp_GPU_Compute bias_ (start [A; B] al) =
    Done (mkContext [A; B] {[0%nat := forward_output bias_ A B]} OK
                    (taken al (NumElements A))).
Proof.
  intros Hv Hint Hal.
  destruct (valid_inputs_dims A B Hv) as (d0 & d1 & d2 & d3 & HsA & H0 & H1 & H2 & H3 & HL & HlB).
  destruct Hv as ((_ & HlA) & _).
  unfold MatrixAddOp_GPU_Compute, input. simpl.
  rewrite allocate_output_OK by done. simpl.
  unfold output_at. simpl. rewrite lookup_insert_eq. simpl.
  rewrite forward_sweep.
  - simpl. unfold written. simpl. rewrite alter_insert_eq. done.
  - rewrite length_map, length_seq, to_int_id; unfold NumElements in *; lia.
  - rewrite length_map, length_seq. unfold NumElements in *. lia.
  - rewrite length_map, length_seq. unfold NumElements in *. lia.
Qed.
End Forward.

(* ================================================================== *)
(** * The backward kernels pass the upstream gradient through          *)
(* ================================================================== *)

Section Backward.
Context {Dtype : Type} `{RealNumberType Dtype}.
Implicit Types (G A B : Tensor Dtype) (al : Allocator Dtype).

(** One iteration of the fill loop on buffers filled up to [i]. *)
Lemma fill_step (top spec ia ib : list Dtype) i ga gb x :
  0 <= i ->
  (length spec <= length ia)%nat -> (length spec <= length ib)%nat ->
  top !! Z.to_nat i = Some x -> spec !! Z.to_nat i = Some x ->
  filled spec ia i ga -> filled spec ib i gb ->
  exists ga' gb',
    (do x <- load top i; do ga <- store ga i x;
     do y <- load top i; do gb <- store gb i y; Done (ga, gb)) = Done (ga', gb') /\
    filled spec ia (i + 1) ga' /\ filled spec ib (i + 1) gb'.
Proof.
  intros Hi Hla Hlb Hx Hs Hga Hgb.
  rewrite (load_Done _ _ _ Hi Hx). simpl.
  destruct (filled_store spec ia i ga x Hi Hla Hs Hga) as [-> Hfa].
  destruct (filled_store spec ib i gb x Hi Hlb Hs Hgb) as [-> Hfb].
  simpl. eauto.
Qed.

(** The fill loop when the gradient fits into the buffers. *)
Lemma MatrixAddGradOp_fill_Done (top ia ib : list Dtype) :
  (length top <= length ia)%nat -> (length top <= length ib)%nat ->
  MatrixAddGradOp_fill (Z.of_nat (length top)) top (ia, ib) =
    Done (top ++ drop (length top) ia, top ++ drop (length top) ib).
Proof.
  intros Hla Hlb. unfold MatrixAddGradOp_fill.
  destruct (for_loop_inv
              (fun i '(ga, gb) => filled top ia i ga /\ filled top ib i gb)
              (Z.of_nat (length top))
              (fun i '(ga, gb) =>
                 do x <- load top i; do ga <- store ga i x;
                 do y <- load top i; do gb <- store gb i y; Done (ga, gb))
              (ia, ib)) as ([ga gb] & Hrun & Hga & Hgb).
  - lia.
  - split; apply filled_start.
  - intros i [ga gb] Hi [Hga Hgb].
    destruct (lookup_lt_is_Some_2 top (Z.to_nat i)) as [x Hx]; [lia|].
    destruct (fill_step top top ia ib i ga gb x) as (ga' & gb' & Hrun & Hf);
      try done; try lia.
    exists (ga', gb'). done.
  - rewrite Hrun. apply filled_end in Hga, Hgb. by subst.
Qed.

(** The fill loop when the gradient has more elements than the buffers:
    the write just behind the first buffer is reached. *)
Lemma MatrixAddGradOp_fill_Crash (top ia ib : list Dtype) :
  length ia = length ib -> (length ia < length top)%nat ->
  MatrixAddGradOp_fill (Z.of_nat (length top)) top (ia, ib) = Crash OutOfBounds.
Proof.
  intros Hlen Hlt. unfold MatrixAddGradOp_fill.
  set (L := length ia). set (spec := take L top).
  assert (length spec = L) as Hspec by (unfold spec; rewrite length_take; lia).
  destruct (for_loop_inv
              (fun i '(ga, gb) => filled spec ia i ga /\ filled spec ib i gb)
              (Z.of_nat L)
              (fun i '(ga, gb) =>
                 do x <- load top i; do ga <- store ga i x;
                 do y <- load top i; do gb <- store gb i y; Done (ga, gb))
              (ia, ib)) as ([ga gb] & Hrun & Hga & Hgb).
  - lia.
  - split; apply filled_start.
  - intros i [ga gb] Hi [Hga Hgb].
    destruct (lookup_lt_is_Some_2 top (Z.to_nat i)) as [x Hx]; [lia|].
    destruct (fill_step top spec ia ib i ga gb x) as (ga' & gb' & Hrun & Hf);
      try done; try lia.
    { unfold spec. rewrite lookup_take_lt by lia. done. }
    exists (ga', gb'). done.
  - eapply (for_loop_crash _ (Z.of_nat L)); [lia|exact Hrun|].
    destruct (lookup_lt_is_Some_2 top L) as [x Hx]; [lia|].
    rewrite (load_Done top _ x) by (rewrite ?Nat2Z.id; done || lia). simpl.
    rewrite store_Crash; [done|].
    rewrite (filled_length spec ia (Z.of_nat L) ga); [lia|lia|lia|done].
Qed.
(** ** The CPU kernel on valid tensors *)

Lemma MatrixAddGradOp_allocate_OK G A rest al :
  valid_tensor A -> 2 * NumElements A <= avail al ->
  MatrixAddGradOp_allocate (start (G :: A :: rest) al) =
    Done (mkContext (G :: A :: rest)
            (<[1%nat := zero_output A]> (<[0%nat := zero_output A]> ∅)) OK
            (taken (taken al (NumElements A)) (NumElements A)),
          Some (to_int (NumElements G), flat G)).
Proof.
  intros [HA HlA] Hal.
  pose proof (num_elements_nonneg _ HA) as Hn. fold (NumElements A) in Hn.
  unfold MatrixAddGradOp_allocate, input. simpl.
  rewrite allocate_output_OK by (simpl; unfold NumElements in *; lia). simpl.
  rewrite allocate_output_OK by (simpl; unfold NumElements in *; lia). simpl.
  unfold setZero. simpl.
  rewrite !(alter_insert_eq (M:=gmap nat)). simpl.
  rewrite !length_map, !length_seq. done.
Qed.

Lemma MatrixAddGradOp_Compute_OK G A rest al :
  valid_tensor G -> valid_tensor A ->
  NumElements G < 2 ^ 31 -> NumElements G <= NumElements A ->
  2 * NumElements A <= avail al ->
  MatrixAddGradOp_Compute (start (G :: A :: rest) al) =
    Done (mkContext (G :: A :: rest)
            (<[1%nat := grad_output G A]> (<[0%nat := grad_output G A]> ∅)) OK
            (taken (taken al (NumElements A)) (NumElements A))).
Proof.
  intros HG HA Hint Hle Hal.
  unfold MatrixAddGradOp_Compute.
  rewrite MatrixAddGradOp_allocate_OK by done. simpl.
  destruct HG as [HG HlG]. pose proof (num_elements_nonneg _ HG) as Hn.
  fold (NumElements G) in Hn.
  unfold output_at. simpl.
  rewrite (lookup_insert_ne (M:=gmap nat)), !(lookup_insert_eq (M:=gmap nat)) by done. simpl.
  rewrite to_int_id, <- HlG by lia.
  rewrite MatrixAddGradOp_fill_Done
    by (unfold zeros; rewrite length_replicate; lia).
  simpl. unfold written. simpl.
  rewrite (alter_insert_ne (M:=gmap nat)), !(alter_insert_eq (M:=gmap nat)) by done. simpl.
  unfold grad_output, zeros. by rewrite !drop_replicate.
Qed.

Lemma MatrixAddGradOp_Compute_Crash G A rest al :
  valid_tensor G -> valid_tensor A ->
  NumElements G < 2 ^ 31 -> NumElements A < NumElements G ->
  2 * NumElements A <= avail al ->
  MatrixAddGradOp_Compute (start (G :: A :: rest) al) = Crash OutOfBounds.
Proof.
  intros HG HA Hint Hlt Hal.
  unfold MatrixAddGradOp_Compute.
  rewrite MatrixAddGradOp_allocate_OK by done. simpl.
  destruct HG as [HG HlG]. destruct HA as [HA HlA].
  pose proof (num_elements_nonneg _ HA) as Hn. fold (NumElements A) in Hn.
  unfold output_at. simpl.
  rewrite (lookup_insert_ne (M:=gmap nat)), !(lookup_insert_eq (M:=gmap nat)) by done. simpl.
  rewrite to_int_id, <- HlG by lia.
  rewrite MatrixAddGradOp_fill_Crash; [done|done|].
  unfold zeros. rewrite length_replicate. lia.
Qed.

Lemma MatrixAddGradOp_Compute_exhausted G A rest al :
  valid_tensor A -> avail al < 2 * NumElements A ->
  exists context,
    MatrixAddGradOp_Compute (start (G :: A :: rest) al) = Done context /\
    status context = ResourceExhausted /\
    outputs context !! 1%nat = None.
Proof.
  intros [HA HlA] Hal.
  pose proof (num_elements_nonneg _ HA) as Hn. fold (NumElements A) in Hn.
  unfold MatrixAddGradOp_Compute, MatrixAddGradOp_allocate, input. simpl.
  destruct (Z.le_gt_cases (NumElements A) (avail al)) as [Hfst|Hfst].
  - rewrite allocate_output_OK by done. simpl.
    rewrite allocate_output_exhausted by (simpl; unfold NumElements in *; lia).
    simpl. eexists. split; [done|]. simpl. split; [done|].
    unfold setZero. simpl. by rewrite (alter_insert_eq (M:=gmap nat)), (lookup_insert_ne (M:=gmap nat)).
  - rewrite allocate_output_exhausted by (simpl; unfold NumElements in *; lia).
    simpl. eexists. split; [done|]. done.
Qed.
(** ** The GPU kernel on valid tensors *)

(** The device loop of the specification is the fill loop of the CPU kernel. *)
Lemma MatrixAddOpBackwardCudaKernelLauncher_fill
    (top : list Dtype) N (inA inB ga gb : list Dtype) :
  MatrixAddOpBackwardCudaKernelLauncher top N inA inB ga gb =
  MatrixAddGradOp_fill N top (ga, gb).
Proof. reflexivity. Qed.

(** What the gradient does not overwrite keeps what the memory held. *)
Lemma MatrixAddGradOp_GPU_Compute_OK G A B al :
  valid_tensor G -> valid_tensor A -> valid_tensor B ->
  NumElements G < 2 ^ 31 ->
  NumElements G <= NumElements A -> NumElements G <= NumElements B ->
  NumElements A + NumElements B <= avail al ->
  MatrixAddGradOp_GPU_Compute (start [G; A; B] al) =
    Done (mkContext [G; A; B]
            (<[1%nat := mkTensor (shape B)
                 (flat G ++ drop (length (flat G))
                                 (fresh (taken al (NumElements A)) (NumElements B)))]>
               (<[0%nat := mkTensor (shape A)
                    (flat G ++ drop (length (flat G)) (fresh al (NumElements A)))]> ∅))
            OK (taken (taken al (NumElements A)) (NumElements B))).
Proof.
  intros [HG HlG] [HA HlA] [HB HlB] Hint HleA HleB Hal.
  pose proof (num_elements_nonneg _ HG) as HnG. fold (NumElements G) in HnG.
  pose proof (num_elements_nonneg _ HA) as HnA. fold (NumElements A) in HnA.
  pose proof (num_elements_nonneg _ HB) as HnB. fold (NumElements B) in HnB.
  unfold MatrixAddGradOp_GPU_Compute, MatrixAddGradOp_GPU_allocate, input. simpl.
  rewrite allocate_output_OK by (simpl; unfold NumElements in *; lia). simpl.
  rewrite allocate_output_OK by (simpl; unfold NumElements in *; lia). simpl.
  unfold output_at. simpl.
  rewrite (lookup_insert_ne (M:=gmap nat)), !(lookup_insert_eq (M:=gmap nat)) by done.
  simpl.
  rewrite MatrixAddOpBackwardCudaKernelLauncher_fill.
  fold (NumElements G). rewrite to_int_id, <- HlG by lia.
  rewrite MatrixAddGradOp_fill_Done
    by (rewrite length_map, length_seq; unfold NumElements in *; lia).
  simpl. unfold written. simpl.
  rewrite (alter_insert_ne (M:=gmap nat)), !(alter_insert_eq (M:=gmap nat)) by done.
  done.
Qed.
End Backward.

(* ================================================================== *)
(** * Two runs side by side                                            *)
(* ================================================================== *)

Lemma for_loop_agree {S} (R : Z -> S -> S -> Prop) n (body : Z -> S -> Exec S) s1 s2 :
  0 <= n ->
  R 0 s1 s2 ->
  (forall i t1 t2, 0 <= i < n -> R i t1 t2 -> agree (R (i + 1)) (body i t1) (body i t2)) ->
  agree (R n) (for_loop n body s1) (for_loop n body s2).
Proof.
  intros Hn H0 Hstep.
  assert (forall k, 0 <= k -> k <= n ->
            agree (R k) (for_loop k body s1) (for_loop k body s2)) as Hall.
  { intros k Hk. pattern k. apply natlike_ind; [| |exact Hk].
    - intros _. by rewrite !for_loop_nonpos.
    - intros j Hj IH Hle. unfold Z.succ. rewrite !for_loop_step by lia.
      specialize (IH ltac:(lia)).
      destruct (for_loop j body s1), (for_loop j body s2); simpl in *; try done.
      apply Hstep; [lia|done]. }
  apply Hall; lia.
Qed.

Section Prefix.
Context {A : Type}.

Lemma same_prefix_all L k (o1 o2 : list A) :
  Z.of_nat L <= k -> same_prefix L k o1 o2 -> o1 = o2.
Proof.
  intros Hk (Hl1 & Hl2 & Ht). rewrite !take_ge in Ht by lia. done.
Qed.

Lemma store_agree L k v (o1 o2 : list A) :
  same_prefix L k o1 o2 ->
  agree (same_prefix L (k + 1)) (store o1 k v) (store o2 k v).
Proof.
  intros (Hl1 & Hl2 & Ht). unfold store. rewrite Hl1, Hl2.
  destruct (Z.leb_spec 0 k); simpl; [|done].
  destruct (Z.ltb_spec k (Z.of_nat L)); simpl; [|done].
  split; [by rewrite length_insert|]. split; [by rewrite length_insert|].
  rewrite Z2Nat.inj_add by lia. change (Z.to_nat 1) with 1%nat.
  rewrite Nat.add_1_r.
  rewrite (take_S_r (<[Z.to_nat k:=v]> o1) _ v)
    by (apply list_lookup_insert_eq; lia).
  rewrite (take_S_r (<[Z.to_nat k:=v]> o2) _ v)
    by (apply list_lookup_insert_eq; lia).
  rewrite !take_insert_ge by lia. by rewrite Ht.
Qed.
End Prefix.

Section Forward_agree.
Context {Dtype : Type} `{RealNumberType Dtype}.

Lemma forward_assign_agree bias_ (ta tb : TensorMap4 Dtype) L dims b r c d o1 o2 :
  same_prefix L (index4 dims b r c d) o1 o2 ->
  agree (same_prefix L (index4 dims b r c d + 1))
    (forward_assign bias_ ta tb dims b r c d o1)
    (forward_assign bias_ ta tb dims b r c d o2).
Proof.
  intros Hp. unfold forward_assign.
  destruct (load (data4 ta) _); simpl; [|done].
  destruct (load (data4 tb) _); simpl; [|done].
  by apply store_agree.
Qed.

(** The nested loops overwrite whatever the output buffer held. *)
Lemma forward_loops_agree bias_ (ta tb : TensorMap4 Dtype) d0 d1 d2 d3 o1 o2 :
  let dims := (d0, d1, d2, d3) in
  0 <= d0 -> 0 <= d1 -> 0 <= d2 -> 0 <= d3 ->
  length o1 = length o2 ->
  agree (same_prefix (length o1) (d0 * d1 * d2 * d3))
    (for_loop d0 (fun b => for_loop d1 (fun r => for_loop d2 (fun c =>
       for_loop d3 (fun d => forward_assign bias_ ta tb dims b r c d)))) o1)
    (for_loop d0 (fun b => for_loop d1 (fun r => for_loop d2 (fun c =>
       for_loop d3 (fun d => forward_assign bias_ ta tb dims b r c d)))) o2).
Proof.
  intros dims H0 H1 H2 H3 Hl. set (L := length o1).
  replace (d0 * d1 * d2 * d3) with (index4 dims d0 0 0 0)
    by (unfold index4, dims; ring).
  apply (for_loop_agree (fun b => same_prefix L (index4 dims b 0 0 0))); [done|done|].
  intros b t1 t2 Hb Ht.
  replace (index4 dims (b + 1) 0 0 0) with (index4 dims b d1 0 0)
    by (unfold index4, dims; ring).
  apply (for_loop_agree (fun r => same_prefix L (index4 dims b r 0 0))); [done|done|].
  intros r u1 u2 Hr Hu.
  replace (index4 dims b (r + 1) 0 0) with (index4 dims b r d2 0)
    by (unfold index4, dims; ring).
  apply (for_loop_agree (fun c => same_prefix L (index4 dims b r c 0))); [done|done|].
  intros c v1 v2 Hc Hv.
  replace (index4 dims b r (c + 1) 0) with (index4 dims b r c d3)
    by (unfold index4, dims; ring).
  apply (for_loop_agree (fun d => same_prefix L (index4 dims b r c d))); [done|done|].
  intros d w1 w2 Hd Hw.
  replace (index4 dims b r c (d + 1)) with (index4 dims b r c d + 1)
    by (unfold index4, dims; ring).
  by apply forward_assign_agree.
Qed.
End Forward_agree.

Section Determinism.
Context {Dtype : Type} `{RealNumberType Dtype}.

Lemma allocate_output_cases index sh (context : OpKernelContext Dtype) :
  allocate_output index sh context = (ResourceExhausted, context) \/
  allocate_output index sh context =
    (OK, mkContext (inputs context)
           (<[index := mkTensor sh (fresh (allocator context) (num_elements sh))]>
              (outputs context))
           (status context) (taken (allocator context) (num_elements sh))).
Proof.
  unfold allocate_output, allocate.
  destruct (num_elements sh <=? avail (allocator context)); auto.
Qed.

Lemma MatrixAddOp_Compute_deterministic bias_ :
  deterministic (MatrixAddOp_Compute bias_).
Proof.
  intros ins al1 al2 c1 c2 Hc1 Hc2 Hs1 Hs2.
  unfold MatrixAddOp_Compute, input in Hc1, Hc2. simpl in Hc1, Hc2.
  destruct (ins !! 0%nat) as [A|]; [|done]. simpl in Hc1, Hc2.
  destruct (tensor4 A) as [ta|]; [|done]. simpl in Hc1, Hc2.
  destruct (ins !! 1%nat) as [B|]; [|done]. simpl in Hc1, Hc2.
  destruct (tensor4 B) as [tb|]; [|done]. simpl in Hc1, Hc2.
  set (d0 := to_int (dim_size (shape A) 0)) in *.
  set (d1 := to_int (dim_size (shape A) 1)) in *.
  set (d2 := to_int (dim_size (shape A) 2)) in *.
  set (d3 := to_int (dim_size (shape A) 3)) in *.
  unfold AddDim in Hc1, Hc2.
  destruct (Z.ltb_spec d0 0); [done|]. simpl in Hc1, Hc2.
  destruct (Z.ltb_spec d1 0); [done|]. simpl in Hc1, Hc2.
  destruct (Z.ltb_spec d2 0); [done|]. simpl in Hc1, Hc2.
  destruct (Z.ltb_spec d3 0); [done|]. simpl in Hc1, Hc2.
  destruct (allocate_output_cases 0 [d0; d1; d2; d3] (start ins al1)) as [E1|E1];
    rewrite E1 in Hc1; simpl in Hc1; [by simplify_eq|].
  destruct (allocate_output_cases 0 [d0; d1; d2; d3] (start ins al2)) as [E2|E2];
    rewrite E2 in Hc2; simpl in Hc2; [by simplify_eq|].
  unfold output_at in Hc1, Hc2. simpl in Hc1, Hc2.
  rewrite (lookup_insert_eq (M:=gmap nat)) in Hc1, Hc2. simpl in Hc1, Hc2.
  pose proof (forward_loops_agree bias_ ta tb d0 d1 d2 d3
                (fresh al1 (num_elements [d0; d1; d2; d3]))
                (fresh al2 (num_elements [d0; d1; d2; d3]))) as Hag.
  simpl in Hag.
  specialize (Hag ltac:(done) ltac:(done) ltac:(done) ltac:(done)).
  specialize (Hag ltac:(unfold fresh; by rewrite !length_map, !length_seq)).
  destruct (for_loop d0 _ (fresh al1 _)) as [o1|]; [|done].
  destruct (for_loop d0 _ (fresh al2 _)) as [o2|]; [|done].
  simpl in Hc1, Hc2, Hag.
  assert (o1 = o2) as ->.
  { eapply same_prefix_all; [|exact Hag].
    unfold fresh. rewrite length_map, length_seq.
    unfold num_elements. simpl. lia. }
  by simplify_eq.
Qed.
Lemma MatrixAddGradOp_Compute_deterministic :
  deterministic MatrixAddGradOp_Compute.
Proof.
  intros ins al1 al2 c1 c2 Hc1 Hc2 Hs1 Hs2.
  unfold MatrixAddGradOp_Compute, MatrixAddGradOp_allocate, input in Hc1, Hc2.
  simpl in Hc1, Hc2.
  destruct (ins !! 0%nat) as [G|]; [|done]. simpl in Hc1, Hc2.
  destruct (ins !! 1%nat) as [A|]; [|done]. simpl in Hc1, Hc2.
  repeat match goal with
         | Hc : context [allocate_output ?i ?sh ?c] |- _ =>
             let E := fresh "E" in
             destruct (allocate_output_cases i sh c) as [E|E];
             rewrite E in Hc; clear E; simpl in Hc; [by simplify_eq|]
         end.
  unfold output_at, setZero in Hc1, Hc2. simpl in Hc1, Hc2.
  rewrite !(alter_insert_eq (M:=gmap nat)) in Hc1, Hc2.
  rewrite (lookup_insert_ne (M:=gmap nat)) in Hc1, Hc2 by done.
  rewrite !(lookup_insert_eq (M:=gmap nat)) in Hc1, Hc2.
  simpl in Hc1, Hc2.
  unfold fresh in Hc1, Hc2. rewrite !length_map, !length_seq in Hc1, Hc2.
  destruct (MatrixAddGradOp_fill _ _ _) as [[ga gb]|]; [|done].
  simpl in Hc1, Hc2. unfold written in Hc1, Hc2. simpl in Hc1, Hc2.
  rewrite (alter_insert_ne (M:=gmap nat)) in Hc1, Hc2 by done.
  rewrite !(alter_insert_eq (M:=gmap nat)) in Hc1, Hc2.
  by simplify_eq.
Qed.
End Determinism.

(* ================================================================== *)
(** * Shape inference on fully known shapes                            *)
(* ================================================================== *)

Lemma merge_dim_known d0 d1 :
  0 <= d0 -> 0 <= d1 -> merge_dim d0 d1 = if decide (d0 = d1) then Some d0 else None.
Proof.
  intros H0 H1. unfold merge_dim, kUnknownDim.
  destruct (Z.eqb_spec d0 (-1)); [lia|].
  destruct (Z.eqb_spec d1 (-1)); [lia|].
  destruct (Z.eqb_spec d0 d1); case_decide; done.
Qed.

Lemma merge_dims_known ds0 ds1 :
  known_dims ds0 -> known_dims ds1 ->
  merge_dims ds0 ds1 = if decide (ds0 = ds1) then Some ds0 else None.
Proof.
  intros H0. revert ds1.
  induction H0 as [|d0 ds0 Hd0 _ IH]; intros [|d1 ds1] H1; simpl; try done.
  apply Forall_cons in H1 as [Hd1 H1].
  rewrite merge_dim_known, IH by done.
  repeat case_decide; simplify_eq; done.
Qed.

Lemma MatrixAdd_shape_fn_known sa sb :
  known_dims sa -> known_dims sb ->
  let c := mkInference [MakeShape sa; MakeShape sb] ∅ in
  MatrixAdd_shape_fn c =
    if decide (length sa = 4%nat /\ sa = sb)
    then (OK, set_output 0 (MakeShape sa) c)
    else (InvalidArgument, c).
Proof.
  intros Ha Hb c. unfold MatrixAdd_shape_fn, WithRank, Merge. simpl.
  destruct (bool_decide_reflect (length sa = 4%nat)) as [Hla|Hla]; simpl;
    [|by rewrite decide_False by (intros [? ?]; done)].
  destruct (bool_decide_reflect (length sb = 4%nat)) as [Hlb|Hlb]; simpl;
    [|by rewrite decide_False by (intros [? ?]; subst; done)].
  rewrite merge_dims_known by done.
  case_decide as Heq; simpl.
  - rewrite decide_True by done.
    destruct sa as [|d0 [|d1 [|d2 [|d3 [|]]]]]; done.
  - by rewrite decide_False by (intros [? ?]; done).
Qed.

(* ================================================================== *)
(** * Properties of the operator pair                                  *)
(* ================================================================== *)

Section Properties.
Context {Dtype : Type} `{RealNumberType Dtype}.
Implicit Types (G A B : Tensor Dtype) (al : Allocator Dtype).

Lemma sum_with_bias_lookup bias_ (xs ys : list Dtype) i x y :
  xs !! i = Some x -> ys !! i = Some y ->
  sum_with_bias bias_ xs ys !! i = Some (dt_add_bias (dt_add x y) bias_).
Proof.
  intros Hx Hy. unfold sum_with_bias. rewrite lookup_zip_with, Hx. simpl.
  by rewrite Hy.
Qed.

Lemma grad_output_same_shape G A :
  valid_tensor G -> shape G = shape A -> grad_output G A = G.
Proof.
  intros [_ HlG] Hsh. unfold grad_output, NumElements in *. rewrite <- Hsh.
  replace (Z.to_nat (num_elements (shape G)) - length (flat G))%nat with 0%nat by lia.
  unfold zeros. simpl. rewrite app_nil_r. by destruct G.
Qed.

(** C1: for two valid tensors [A], [B] of one rank-4 shape and every bias,
    the CPU forward kernel ends with status OK and an output of the inputs'
    shape whose element at every flat index [i] is [A[i] + B[i] + bias_] in
    the arithmetic of the element type; this for every element type. *)
Theorem forward_elementwise_sum bias_ A B al :
  valid_inputs A B ->
  NumElements A <= avail al ->
  exists context output,
    MatrixAddOp_Compute bias_ (start [A; B] al) = Done context /\
    status context = OK /\
    outputs context !! 0%nat = Some output /\
    shape output = shape A /\
    length (flat output) = length (flat A) /\
    forall i x y,
      flat A !! i = Some x -> flat B !! i = Some y ->
      flat output !! i = Some (dt_add_bias (dt_add x y) bias_).
Proof.
  intros Hv Hal.
  exists (mkContext [A; B] {[0%nat := forward_output bias_ A B]} OK
                    (taken al (NumElements A))),
         (forward_output bias_ A B).
  split; [by apply MatrixAddOp_Compute_OK|].
  split; [done|]. split; [apply (lookup_singleton_eq (M:=gmap nat))|].
  split; [done|]. split.
  - destruct (valid_inputs_dims A B Hv) as (? & ? & ? & ? & _ & _ & _ & _ & _ & _ & HlB).
    simpl. unfold sum_with_bias. rewrite length_zip_with. lia.
  - intros i x y Hx Hy. simpl. by apply sum_with_bias_lookup.
Qed.

(** C2: for a valid upstream gradient [G] that fits into the outputs, the
    CPU backward kernel ends with status OK and two outputs that hold [G[i]]
    at every flat index [i] of [G]; when [G] has the shape of [matrix_a], both
    outputs are [G]. *)
Theorem backward_pass_through G A rest al :
  valid_tensor G -> valid_tensor A ->
  NumElements G < 2 ^ 31 ->
  NumElements G <= NumElements A ->
  2 * NumElements A <= avail al ->
  exists context grad_A grad_B,
    MatrixAddGradOp_Compute (start (G :: A :: rest) al) = Done context /\
    status context = OK /\
    outputs context !! 0%nat = Some grad_A /\
    outputs context !! 1%nat = Some grad_B /\
    (forall i x, flat G !! i = Some x ->
                 flat grad_A !! i = Some x /\ flat grad_B !! i = Some x) /\
    (shape G = shape A -> grad_A = G /\ grad_B = G).
Proof.
  intros HG HA Hint Hle Hal.
  eexists _, (grad_output G A), (grad_output G A).
  split; [by apply MatrixAddGradOp_Compute_OK|]. simpl.
  split; [done|].
  split; [by rewrite (lookup_insert_ne (M:=gmap nat)), (lookup_insert_eq (M:=gmap nat))|].
  split; [by rewrite (lookup_insert_eq (M:=gmap nat))|].
  split.
  - intros i x Hx. simpl. split; by apply lookup_app_l_Some.
  - intros Hsh. by rewrite grad_output_same_shape.
Qed.

(** C5: on valid inputs of one rank-4 shape the CPU kernel (nested loops over
    the logical indices) and the GPU kernel (one sweep over the flat element
    range) end in the same context, for every allocator: the same output
    tensor, or the same allocation failure. *)
Theorem forward_nested_equals_flat bias_ A B al :
  valid_inputs A B ->
  NumElements A < 2 ^ 31 ->
  MatrixAddOp_Compute bias_ (start [A; B] al) =
  MatrixAddOp_GPU_Compute bias_ (start [A; B] al).
Proof.
  intros Hv Hint.
  destruct (Z.le_gt_cases (NumElements A) (avail al)) as [Hal|Hal].
  - by rewrite MatrixAddOp_Compute_OK, MatrixAddOp_GPU_Compute_OK.
  - rewrite MatrixAddOp_Compute_exhausted by done.
    unfold MatrixAddOp_GPU_Compute, input. simpl.
    by rewrite allocate_output_exhausted.
Qed.

(** C6: the CPU kernels are deterministic: two runs on the same inputs (and
    bias) that end with status OK have the same outputs, whatever the memory
    handed out by the allocator contained. *)
Theorem kernels_deterministic bias_ :
  deterministic (MatrixAddOp_Compute bias_) /\
  deterministic MatrixAddGradOp_Compute.
Proof.
  split.
  - apply MatrixAddOp_Compute_deterministic.
  - apply MatrixAddGradOp_Compute_deterministic.
Qed.


(** C9: the CPU gradient kernel gives both outputs the shape of [matrix_a]
    whatever follows it in the input list ([matrix_b] is never looked at);
    its fill loop runs over the element count of [G]: it stays inside the
    output buffers when [G] has no more elements than [matrix_a], and
    otherwise reaches a write outside them. *)
Theorem grad_fill_in_bounds_iff G A rest al :
  valid_tensor G -> valid_tensor A ->
  NumElements G < 2 ^ 31 ->
  2 * NumElements A <= avail al ->
  shape (grad_output G A) = shape A /\
  (NumElements G <= NumElements A ->
   exists context,
     MatrixAddGradOp_Compute (start (G :: A :: rest) al) = Done context /\
     status context = OK /\
     outputs context = <[1%nat := grad_output G A]> (<[0%nat := grad_output G A]> ∅)) /\
  (NumElements A < NumElements G ->
   MatrixAddGradOp_Compute (start (G :: A :: rest) al) = Crash OutOfBounds).
Proof.
  intros HG HA Hint Hal. split; [done|]. split.
  - intros Hle. rewrite MatrixAddGradOp_Compute_OK by done. eauto.
  - intros Hlt. by apply MatrixAddGradOp_Compute_Crash.
Qed.
End Properties.

(** ** Shape inference and registration *)

(** C3: on fully known input shapes the shape function of "MatrixAdd" fails
    with InvalidArgument (the specification's ShapeMismatch) whenever an input
    is not of rank 4 or the shapes differ; the failure leaves the inference
    context without an output shape and the node never gets a kernel context,
    so nothing is allocated and no kernel runs; on two equal rank-4 shapes it
    succeeds, and whenever it succeeds the inferred output shape is the input
    shape. *)
Theorem shape_inference_contract (sa sb : list DimensionHandle) :
  known_dims sa -> known_dims sb ->
  let c := mkInference [MakeShape sa; MakeShape sb] ∅ in
  (length sa <> 4%nat \/ length sb <> 4%nat \/ sa <> sb ->
   MatrixAdd_shape_fn c = (InvalidArgument, c) /\
   forall Dtype (T : RealNumberType Dtype) bias_ (A B : Tensor Dtype) al,
     shape A = sa -> shape B = sb ->
     run_MatrixAdd bias_ A B al = inl InvalidArgument) /\
  (length sa = 4%nat -> sa = sb ->
   MatrixAdd_shape_fn c = (OK, set_output 0 (MakeShape sa) c)) /\
  (forall c', MatrixAdd_shape_fn c = (OK, c') ->
     ic_outputs c' !! 0%nat = Some (MakeShape sa) /\
     length sa = 4%nat /\ sa = sb).
Proof.
  intros Ha Hb c.
  pose proof (MatrixAdd_shape_fn_known sa sb Ha Hb) as Hfn. fold c in Hfn.
  split; [|split].
  - intros Hbad.
    assert (MatrixAdd_shape_fn c = (InvalidArgument, c)) as Hfail.
    { rewrite Hfn. apply decide_False. intros [Hl Heq]. subst sb.
      destruct Hbad as [?|[?|?]]; done. }
    split; [done|].
    intros Dtype T bias_ A B al HA HB.
    unfold run_MatrixAdd, infer_shapes, shape_of. simpl.
    rewrite HA, HB. fold c. by rewrite Hfail.
  - intros Hl Heq. rewrite Hfn. by apply decide_True.
  - intros c' Hok. rewrite Hfn in Hok.
    destruct (decide (length sa = 4%nat /\ sa = sb)) as [[Hl Heq]|_]; [|done].
    inversion Hok; subst c'. simpl.
    by rewrite (lookup_insert_eq (M:=gmap nat)).
Qed.

(** C10: "MatrixAddGrad" is registered without a shape function: shape
    inference accepts every list of input shapes for it, while "MatrixAdd"
    rejects an input of rank 3 and two rank-4 shapes that differ. *)
Theorem grad_registered_without_shape_fn :
  op_shape_fn MatrixAddGrad = None /\
  (forall input_shapes, fst (infer_shapes MatrixAddGrad input_shapes) = OK) /\
  fst (infer_shapes MatrixAdd [MakeShape [2; 3; 4]; MakeShape [2; 3; 4]])
    = InvalidArgument /\
  fst (infer_shapes MatrixAdd [MakeShape [2; 3; 4; 5]; MakeShape [2; 3; 4; 6]])
    = InvalidArgument /\
  fst (infer_shapes MatrixAddGrad [MakeShape [2; 3; 4]; MakeShape [7]; UnknownShape])
    = OK.
Proof. repeat split. Qed.

(** Shapes that are only partly known pass the shape function: unknown rank
    and unknown sizes are compatible with everything, and the output shape is
    built from the sizes of input 0. *)
Example shape_fn_unknown_rank :
  let c := mkInference [UnknownShape; MakeShape [2; 3; 4; 5]] ∅ in
  MatrixAdd_shape_fn c = (OK, set_output 0 (MakeShape [-1; -1; -1; -1]) c).
Proof. reflexivity. Qed.

Example shape_fn_unknown_dim :
  let c := mkInference [MakeShape [-1; 3; 4; 5]; MakeShape [2; 3; 4; 5]] ∅ in
  MatrixAdd_shape_fn c = (OK, set_output 0 (MakeShape [-1; 3; 4; 5]) c).
Proof. reflexivity. Qed.

(** The kernel table: both operators on both devices for the three types. *)
Example kernel_registry_entries :
  length kernel_registry = 12%nat /\
  In ("MatrixAdd"%string, DEVICE_CPU, DT_INT32) kernel_registry.
Proof. split; [reflexivity|]. left. reflexivity. Qed.

(** ** The examples of the specification *)

(** Section 8: two tensors of shape [1,1,1,3] filled with 1.0 and bias 0.5
    give [2.5, 2.5, 2.5], on the CPU and on the GPU path. *)
Example forward_example :
  let one := Float (S754_finite false 8388608 (-23)) in
  let half := Float (S754_finite false 8388608 (-24)) in
  let two_and_a_half := Float (S754_finite false 10485760 (-22)) in
  let A := mkTensor [1; 1; 1; 3] [one; one; one] in
  let al := mkAllocator 3 (fun _ => Float S754_nan) 0 in
  let result := mkTensor [1; 1; 1; 3] [two_and_a_half; two_and_a_half; two_and_a_half] in
  exec_map outputs (MatrixAddOp_Compute half (start [A; A] al)) = Done {[0%nat := result]} /\
  exec_map outputs (MatrixAddOp_GPU_Compute half (start [A; A] al)) = Done {[0%nat := result]}.
Proof. split; reflexivity. Qed.

(** Section 8: the gradient [1, 1, 1] is passed to both inputs. *)
Example backward_example :
  let one := Float (S754_finite false 8388608 (-23)) in
  let A := mkTensor [1; 1; 1; 3] [one; one; one] in
  let al := mkAllocator 6 (fun _ => Float S754_nan) 0 in
  exec_map outputs (MatrixAddGradOp_Compute (start [A; A; A] al))
    = Done (<[1%nat := A]> (<[0%nat := A]> ∅)) /\
  exec_map outputs (MatrixAddGradOp_GPU_Compute (start [A; A; A] al))
    = Done (<[1%nat := A]> (<[0%nat := A]> ∅)).
Proof. split; reflexivity. Qed.

(** ** Sizes that are not C++ [int]s *)

(** The CPU forward kernel reads the four sizes into [int] variables.  Two
    valid tensors without elements show what that does to a size of 2^32 (the
    output gets the shape [0,0,1,1]) and to one of 2^31 (the negative size
    fails the CHECK of AddDim); [int_sized] in [valid_inputs] keeps the
    theorems away from such shapes. *)
Example forward_sizes_beyond_int :
  let A : Tensor Z := mkTensor [4294967296; 0; 1; 1] [] in
  let A' : Tensor Z := mkTensor [2147483648; 0; 1; 1] [] in
  (valid_tensor A /\ valid_tensor A') /\
  exec_map outputs (MatrixAddOp_Compute (int_to_float 0) (start [A; A] wal))
    = Done {[0%nat := mkTensor [0; 0; 1; 1] []]} /\
  MatrixAddOp_Compute (int_to_float 0) (start [A'; A'] wal) = Crash CheckFailure.
Proof. split; [split; solve_valid|split; reflexivity]. Qed.

(** ** The [int] kernels *)

Lemma truncate_toward_zero s m e :
  truncate (S754_finite s m e) =
    Some (if e <? 0 then Z.quot (cond_Zopp s (Zpos m)) (2 ^ (- e))
          else cond_Zopp s (Zpos m) * 2 ^ e).
Proof.
  unfold truncate. f_equal.
  destruct (Z.ltb_spec e 0) as [He|He].
  - rewrite <- Z.shiftr_opp_r, Z.shiftr_div_pow2 by lia.
    assert (0 < 2 ^ (- e)) as Hp by (apply Z.pow_pos_nonneg; lia).
    destruct s; simpl.
    + change (Z.neg m) with (- Z.pos m).
      rewrite Z.quot_opp_l, Z.quot_div_nonneg by lia. done.
    + rewrite Z.quot_div_nonneg by lia. done.
  - rewrite Z.shiftl_mul_pow2 by lia.
    destruct s; simpl; [|done].
    change (Z.neg m) with (- Z.pos m). lia.
Qed.

(** The sum 16777216 + 1 + 1 through the [int] kernel with bias 1.0. *)
Example int_forward_inexact :
  let A := mkTensor [1; 1; 1; 1] [16777216] in
  let B := mkTensor [1; 1; 1; 1] [1] in
  let al := mkAllocator 1 (fun _ => 0) 0 in
  exists context,
    MatrixAddOp_Compute (int_to_float 1) (start [A; B] al) = Done context /\
    outputs context !! 0%nat = Some (mkTensor [1; 1; 1; 1] [16777216]) /\
    16777216 <> 16777216 + 1 + 1.
Proof.
  eexists. split; [vm_compute; reflexivity|]. split; [vm_compute; reflexivity|lia].
Qed.

(** C8: with [int] elements the CPU forward kernel stores, at every index,
    the conversion to [int] of [float(A[i] + B[i]) + bias_] computed in
    [float]; that conversion discards the fraction (truncation toward zero);
    and the result is not the exact integer sum in general: with bias 1.0
    the elements 16777216 and 1 give 16777216, not 16777218. *)
Theorem int_forward_through_float bias_ (A B : Tensor Z) (al : Allocator Z) :
  valid_inputs A B ->
  NumElements A <= avail al ->
  (exists context output,
     MatrixAddOp_Compute bias_ (start [A; B] al) = Done context /\
     outputs context !! 0%nat = Some output /\
     forall i x y,
       flat A !! i = Some x -> flat B !! i = Some y ->
       flat output !! i =
         Some (float_to_int (float_add (int_to_float (int_add x y)) bias_))) /\
  (forall s m e,
     truncate (S754_finite s m e) =
       Some (if e <? 0 then Z.quot (cond_Zopp s (Zpos m)) (2 ^ (- e))
             else cond_Zopp s (Zpos m) * 2 ^ e)) /\
  (exists context,
     MatrixAddOp_Compute (int_to_float 1)
       (start [mkTensor [1; 1; 1; 1] [16777216]; mkTensor [1; 1; 1; 1] [1]]
              (mkAllocator 1 (fun _ => 0) 0)) = Done context /\
     outputs context !! 0%nat = Some (mkTensor [1; 1; 1; 1] [16777216]) /\
     16777216 <> 16777216 + 1 + 1).
Proof.
  intros Hv Hal. split; [|split].
  - eexists _, (forward_output bias_ A B).
    split; [by apply MatrixAddOp_Compute_OK|].
    split; [apply (lookup_singleton_eq (M:=gmap nat))|].
    intros i x y Hx Hy. simpl.
    by rewrite (sum_with_bias_lookup bias_ _ _ i x y).
  - apply truncate_toward_zero.
  - apply int_forward_inexact.
Qed.

(** ** Zero initialisation in the gradient kernels *)

(** C4 (the GPU path does not do what the CPU path does): with an upstream
    gradient of three elements and an allocator whose memory holds 7, the CPU
    kernel has both outputs zeroed before its fill loop, the GPU kernel hands
    both buffers to the launcher as allocated; with a gradient of two
    elements for inputs of three, the third element of the outputs is 0 on
    the CPU and what the memory held on the GPU. *)
Theorem grad_gpu_outputs_not_zeroed :
  let G := mkTensor [1; 1; 1; 3] [1; 1; 1] in
  let G2 := mkTensor [1; 1; 1; 2] [1; 1] in
  let al := mkAllocator 100 (fun _ => 7) 0 in
  let zeroed := mkTensor [1; 1; 1; 3] [0; 0; 0] in
  let stale := mkTensor [1; 1; 1; 3] [7; 7; 7] in
  exec_map fst (MatrixAddGradOp_allocate (start [G; G; G] al))
    = Done (mkContext [G; G; G] (<[1%nat := zeroed]> (<[0%nat := zeroed]> ∅)) OK
                      (mkAllocator 94 (fun _ => 7) 6)) /\
  exec_map fst (MatrixAddGradOp_GPU_allocate (start [G; G; G] al))
    = Done (mkContext [G; G; G] (<[1%nat := stale]> (<[0%nat := stale]> ∅)) OK
                      (mkAllocator 94 (fun _ => 7) 6)) /\
  exec_map outputs (MatrixAddGradOp_Compute (start [G2; G; G] al))
    = Done (<[1%nat := mkTensor [1; 1; 1; 3] [1; 1; 0]]>
              (<[0%nat := mkTensor [1; 1; 1; 3] [1; 1; 0]]> ∅)) /\
  exec_map outputs (MatrixAddGradOp_GPU_Compute (start [G2; G; G] al))
    = Done (<[1%nat := mkTensor [1; 1; 1; 3] [1; 1; 7]]>
              (<[0%nat := mkTensor [1; 1; 1; 3] [1; 1; 7]]> ∅)).
Proof. repeat split. Qed.

(* ================================================================== *)
(** * The theorems at concrete inputs                                  *)
(* ================================================================== *)

Lemma wA_wB_valid : valid_inputs wA wB.
Proof. solve_valid. Defined.

Lemma wG_valid : valid_tensor wG.
Proof. solve_valid. Defined.

Lemma wA_valid : valid_tensor wA.
Proof. solve_valid. Defined.

Lemma forward_elementwise_sum_witness :
  valid_inputs wA wB /\ NumElements wA <= avail wal /\
  exists context,
    MatrixAddOp_Compute (int_to_float 1) (start [wA; wB] wal) = Done context /\
    status context = OK.
Proof.
  split; [exact wA_wB_valid|]. split; [vm_compute; discriminate|].
  destruct (forward_elementwise_sum (int_to_float 1) wA wB wal wA_wB_valid)
    as (context & output & Hrun & Hs & _); [vm_compute; discriminate|].
  exists context. split; assumption.
Defined.

Lemma backward_pass_through_witness :
  exists context,
    MatrixAddGradOp_Compute (start [wG; wA; wB] wal) = Done context /\
    status context = OK /\
    outputs context !! 0%nat = Some wG /\ outputs context !! 1%nat = Some wG.
Proof.
  destruct (backward_pass_through wG wA [wB] wal wG_valid wA_valid)
    as (context & ga & gb & Hrun & Hs & H0 & H1 & _ & Hsame);
    [vm_compute; reflexivity|vm_compute; discriminate|vm_compute; discriminate|].
  destruct (Hsame eq_refl) as [-> ->].
  exists context. repeat split; assumption.
Defined.

Lemma shape_inference_contract_witness :
  MatrixAdd_shape_fn (mkInference [MakeShape [2; 3; 4; 5]; MakeShape [2; 3; 4; 6]] ∅)
  = (InvalidArgument, mkInference [MakeShape [2; 3; 4; 5]; MakeShape [2; 3; 4; 6]] ∅).
Proof.
  destruct (shape_inference_contract [2; 3; 4; 5] [2; 3; 4; 6]) as [Hfail _];
    [solve_valid|solve_valid|].
  apply Hfail. right. right. discriminate.
Defined.

Lemma forward_nested_equals_flat_witness :
  MatrixAddOp_Compute (int_to_float 1) (start [wA; wB] wal) =
  MatrixAddOp_GPU_Compute (int_to_float 1) (start [wA; wB] wal).
Proof.
  apply forward_nested_equals_flat; [exact wA_wB_valid|vm_compute; reflexivity].
Defined.

Lemma kernels_deterministic_witness :
  exists c1 c2,
    MatrixAddOp_Compute (int_to_float 1) (start [wA; wB] wal) = Done c1 /\
    MatrixAddOp_Compute (int_to_float 1)
      (start [wA; wB] (mkAllocator 50 (fun _ => 9) 4)) = Done c2 /\
    outputs c1 = outputs c2.
Proof.
  eexists _, _. split; [vm_compute; reflexivity|]. split; [vm_compute; reflexivity|].
  apply (proj1 (kernels_deterministic (int_to_float 1))
               [wA; wB] wal (mkAllocator 50 (fun _ => 9) 4));
    vm_compute; reflexivity.
Defined.


Lemma int_forward_through_float_witness :
  exists context output,
    MatrixAddOp_Compute (int_to_float 1) (start [wA; wB] wal) = Done context /\
    outputs context !! 0%nat = Some output /\
    forall i x y,
      flat wA !! i = Some x -> flat wB !! i = Some y ->
      flat output !! i =
        Some (float_to_int (float_add (int_to_float (int_add x y)) (int_to_float 1))).
Proof.
  apply (int_forward_through_float (int_to_float 1) wA wB wal wA_wB_valid).
  vm_compute; discriminate.
Defined.

Lemma grad_fill_in_bounds_iff_witness :
  MatrixAddGradOp_Compute
    (start [mkTensor [4] [1; 2; 3; 4]; wA; wB] wal) = Crash OutOfBounds.
Proof.
  destruct (grad_fill_in_bounds_iff (mkTensor [4] [1; 2; 3; 4]) wA [wB] wal)
    as (_ & _ & Hcrash);
    [solve_valid|exact wA_valid|vm_compute; reflexivity|vm_compute; discriminate|].
  apply Hcrash. vm_compute. reflexivity.
Defined.

(* ================================================================== *)
(** * Further properties of the kernels                                *)
(* ================================================================== *)

Section Kernel_edges.
Context {Dtype : Type} `{RealNumberType Dtype}.
Implicit Types (G A B : Tensor Dtype) (al : Allocator Dtype).

Lemma tensor4_not_rank4 (t : Tensor Dtype) :
  length (shape t) <> 4%nat -> tensor4 t = Crash CheckFailure.
Proof.
  unfold tensor4. destruct (shape t) as [|? [|? [|? [|? [|]]]]]; simpl; done.
Qed.

Lemma tensor4_rank4 (t : Tensor Dtype) :
  length (shape t) = 4%nat -> exists v, tensor4 t = Done v /\ data4 v = flat t.
Proof.
  unfold tensor4. destruct (shape t) as [|? [|? [|? [|? [|]]]]]; simpl; try done.
  eauto.
Qed.

(** X1: the CPU forward kernel takes rank-4 views of both inputs before it
    does anything else: an input of any other rank aborts the process on the
    runtime's CHECK; no status is set, nothing is allocated. *)
Theorem forward_cpu_rank_check bias_ A B rest al :
  length (shape A) <> 4%nat \/ length (shape B) <> 4%nat ->
  MatrixAddOp_Compute bias_ (start (A :: B :: rest) al) = Crash CheckFailure.
Proof.
  intros Hrank. unfold MatrixAddOp_Compute, input. simpl.
  destruct (decide (length (shape A) = 4%nat)) as [HA|HA].
  - destruct (tensor4_rank4 A HA) as (v & -> & _). simpl.
    destruct Hrank as [?|HB]; [done|].
    by rewrite (tensor4_not_rank4 B HB).
  - by rewrite (tensor4_not_rank4 A HA).
Qed.

(** X2: the four sizes of [matrix_a] are read into [int] variables; a size
    that is negative as an [int] fails the CHECK of AddDim, whatever the
    tensors hold. *)
Theorem forward_cpu_size_check bias_ A B rest al d0 d1 d2 d3 :
  shape A = [d0; d1; d2; d3] -> length (shape B) = 4%nat ->
  to_int d0 < 0 \/ to_int d1 < 0 \/ to_int d2 < 0 \/ to_int d3 < 0 ->
  MatrixAddOp_Compute bias_ (start (A :: B :: rest) al) = Crash CheckFailure.
Proof.
  intros HA HB Hneg. unfold MatrixAddOp_Compute, input. simpl.
  destruct (tensor4_rank4 A) as (va & -> & _); [by rewrite HA|].
  destruct (tensor4_rank4 B HB) as (vb & -> & _). simpl.
  rewrite HA. unfold dim_size, AddDim. simpl.
  destruct (Z.ltb_spec (to_int d0) 0); [done|]. simpl.
  destruct (Z.ltb_spec (to_int d1) 0); [done|]. simpl.
  destruct (Z.ltb_spec (to_int d2) 0); [done|]. simpl.
  destruct (Z.ltb_spec (to_int d3) 0); [done|]. lia.
Qed.
End Kernel_edges.

Section Kernel_statuses.
Context {Dtype : Type} `{RealNumberType Dtype}.

Ltac split_allocation Hc :=
  repeat match type of Hc with
         | context [allocate_output ?i ?sh ?c] =>
             let E := fresh "E" in
             destruct (allocate_output_cases i sh c) as [E|E];
             rewrite E in Hc; clear E; simpl in Hc;
             [by simplify_eq; auto|]
         end.

Lemma MatrixAddOp_Compute_statuses bias_ :
  only_allocation_fails (MatrixAddOp_Compute bias_).
Proof.
  intros ins al c Hc.
  unfold MatrixAddOp_Compute, input in Hc. simpl in Hc.
  destruct (ins !! 0%nat) as [A|]; [|done]. simpl in Hc.
  destruct (tensor4 A) as [ta|]; [|done]. simpl in Hc.
  destruct (ins !! 1%nat) as [B|]; [|done]. simpl in Hc.
  destruct (tensor4 B) as [tb|]; [|done]. simpl in Hc.
  unfold AddDim in Hc.
  repeat match type of Hc with
         | context [?d <? 0] => destruct (d <? 0); [done|]; simpl in Hc
         end.
  split_allocation Hc.
  unfold output_at in Hc. simpl in Hc.
  rewrite (lookup_insert_eq (M:=gmap nat)) in Hc. simpl in Hc.
  destruct (for_loop _ _ _) as [out|]; [|done].
  simpl in Hc. simplify_eq. simpl. auto.
Qed.

Lemma MatrixAddOp_GPU_Compute_statuses bias_ :
  only_allocation_fails (MatrixAddOp_GPU_Compute bias_).
Proof.
  intros ins al c Hc.
  unfold MatrixAddOp_GPU_Compute, input in Hc. simpl in Hc.
  destruct (ins !! 0%nat) as [A|]; [|done]. simpl in Hc.
  destruct (ins !! 1%nat) as [B|]; [|done]. simpl in Hc.
  split_allocation Hc.
  unfold output_at in Hc. simpl in Hc.
  rewrite (lookup_insert_eq (M:=gmap nat)) in Hc. simpl in Hc.
  destruct (MatrixAddOpForwardCudaKernelLauncher _ _ _ _ _) as [out|]; [|done].
  simpl in Hc. simplify_eq. simpl. auto.
Qed.

Lemma MatrixAddGradOp_Compute_statuses :
  only_allocation_fails (MatrixAddGradOp_Compute (Dtype:=Dtype)).
Proof.
  intros ins al c Hc.
  unfold MatrixAddGradOp_Compute, MatrixAddGradOp_allocate, input in Hc.
  simpl in Hc.
  destruct (ins !! 0%nat) as [G|]; [|done]. simpl in Hc.
  destruct (ins !! 1%nat) as [A|]; [|done]. simpl in Hc.
  split_allocation Hc.
  destruct (output_at 0 _) as [ga|]; [|done]. simpl in Hc.
  destruct (output_at 1 _) as [gb|]; [|done]. simpl in Hc.
  destruct (MatrixAddGradOp_fill _ _ _) as [[oa ob]|]; [|done].
  simpl in Hc. simplify_eq. simpl. auto.
Qed.

Lemma MatrixAddGradOp_GPU_Compute_statuses :
  only_allocation_fails (MatrixAddGradOp_GPU_Compute (Dtype:=Dtype)).
Proof.
  intros ins al c Hc.
  unfold MatrixAddGradOp_GPU_Compute, MatrixAddGradOp_GPU_allocate, input in Hc.
  simpl in Hc.
  destruct (ins !! 0%nat) as [G|]; [|done]. simpl in Hc.
  destruct (ins !! 1%nat) as [A|]; [|done]. simpl in Hc.
  destruct (ins !! 2%nat) as [B|]; [|done]. simpl in Hc.
  split_allocation Hc.
  destruct (output_at 0 _) as [ga|]; [|done]. simpl in Hc.
  destruct (output_at 1 _) as [gb|]; [|done]. simpl in Hc.
  destruct (MatrixAddOpBackwardCudaKernelLauncher _ _ _ _ _ _) as [[oa ob]|]; [|done].
  simpl in Hc. simplify_eq. simpl. auto.
Qed.

(** X3: whatever the inputs, a kernel that returns has left its inputs as
    they were, and its status is OK or the failed allocation: a wrong rank, a
    wrong size or a wrong element count is never reported as a status by any
    of the four kernels. *)
Theorem kernels_only_allocation_fails bias_ :
  only_allocation_fails (MatrixAddOp_Compute (Dtype:=Dtype) bias_) /\
  only_allocation_fails (MatrixAddOp_GPU_Compute (Dtype:=Dtype) bias_) /\
  only_allocation_fails (MatrixAddGradOp_Compute (Dtype:=Dtype)) /\
  only_allocation_fails (MatrixAddGradOp_GPU_Compute (Dtype:=Dtype)).
Proof.
  split; [apply MatrixAddOp_Compute_statuses|].
  split; [apply MatrixAddOp_GPU_Compute_statuses|].
  split; [apply MatrixAddGradOp_Compute_statuses|].
  apply MatrixAddGradOp_GPU_Compute_statuses.
Qed.
End Kernel_statuses.

Section Forward_GPU_edges.
Context {Dtype : Type} `{RealNumberType Dtype}.
Implicit Types (A B : Tensor Dtype) (al : Allocator Dtype).

(** The first [n] iterations of the device loop, when all three buffers have
    that many elements. *)
Lemma forward_sweep_prefix bias_ (n : nat) (xs ys init : list Dtype) :
  (n <= length init)%nat -> (n <= length xs)%nat -> (n <= length ys)%nat ->
  exists out,
    for_loop (Z.of_nat n)
      (fun i top => do a <- load xs i; do b <- load ys i;
                    store top i (add_with_bias bias_ a b)) init = Done out /\
    filled (take n (sum_with_bias bias_ xs ys)) init (Z.of_nat n) out.
Proof.
  intros Hi Hx Hy.
  set (spec := take n (sum_with_bias bias_ xs ys)).
  assert (length spec <= length init)%nat as Hl
    by (unfold spec; rewrite length_take; lia).
  apply (for_loop_inv (fun i => filled spec init i)); [lia|apply filled_start|].
  intros i t Hir Ht.
  destruct (lookup_lt_is_Some_2 xs (Z.to_nat i)) as [x Hx']; [lia|].
  destruct (lookup_lt_is_Some_2 ys (Z.to_nat i)) as [y Hy']; [lia|].
  rewrite (load_Done _ _ _ (proj1 Hir) Hx'), (load_Done _ _ _ (proj1 Hir) Hy'). simpl.
  assert (spec !! Z.to_nat i = Some (add_with_bias bias_ x y)) as Hv.
  { unfold spec. rewrite lookup_take_lt by lia.
    by apply sum_with_bias_lookup. }
  destruct (filled_store spec init i t _ (proj1 Hir) Hl Hv Ht) as [-> Hf]. eauto.
Qed.

Lemma forward_sweep_Done bias_ (xs ys init : list Dtype) :
  length init = length xs -> (length xs <= length ys)%nat ->
  MatrixAddOpForwardCudaKernelLauncher init (Z.of_nat (length xs)) xs ys bias_
  = Done (sum_with_bias bias_ xs ys).
Proof.
  intros Hi Hy. unfold MatrixAddOpForwardCudaKernelLauncher.
  destruct (forward_sweep_prefix bias_ (length xs) xs ys init)
    as (out & -> & Hout); [lia|lia|lia|]. f_equal.
  assert (length (sum_with_bias bias_ xs ys) = length xs) as Hl
    by (unfold sum_with_bias; rewrite length_zip_with; lia).
  rewrite take_ge in Hout by lia. rewrite <- Hl in Hout.
  apply filled_end in Hout. rewrite Hout, Hl, <- Hi, drop_all. apply app_nil_r.
Qed.

Lemma forward_sweep_Crash bias_ (xs ys init : list Dtype) :
  length init = length xs -> (length ys < length xs)%nat ->
  MatrixAddOpForwardCudaKernelLauncher init (Z.of_nat (length xs)) xs ys bias_
  = Crash OutOfBounds.
Proof.
  intros Hi Hy. unfold MatrixAddOpForwardCudaKernelLauncher.
  destruct (forward_sweep_prefix bias_ (length ys) xs ys init)
    as (out & Hrun & _); [lia|lia|lia|].
  eapply (for_loop_crash _ (Z.of_nat (length ys))); [lia|exact Hrun|].
  destruct (lookup_lt_is_Some_2 xs (length ys)) as [x Hx]; [lia|].
  rewrite (load_Done xs _ x) by (rewrite ?Nat2Z.id; done || lia). simpl.
  unfold load. destruct (Z.ltb_spec (Z.of_nat (length ys)) 0); [done|].
  rewrite Nat2Z.id, lookup_ge_None_2 by lia. done.
Qed.

(** X4: the GPU forward kernel looks at neither the rank of its inputs nor
    at the shape of [matrix_b]: on two valid tensors of any shapes it gives an
    output of [matrix_a]'s shape holding the element-wise sum over the
    flat buffers when [matrix_b] has at least as many elements as [matrix_a],
    and reads behind [matrix_b]'s buffer when it has fewer. *)
Theorem forward_gpu_flat_contract bias_ A B rest al :
  valid_tensor A -> valid_tensor B ->
  NumElements A < 2 ^ 31 -> NumElements A <= avail al ->
  (NumElements A <= NumElements B ->
   MatrixAddOp_GPU_Compute bias_ (start (A :: B :: rest) al) =
     Done (mkContext (A :: B :: rest) {[0%nat := forward_output bias_ A B]} OK
                     (taken al (NumElements A)))) /\
  (NumElements B < NumElements A ->
   MatrixAddOp_GPU_Compute bias_ (start (A :: B :: rest) al) = Crash OutOfBounds).
Proof.
  intros [HA HlA] [HB HlB] Hint Hal.
  pose proof (num_elements_nonneg _ HA) as HnA. fold (NumElements A) in HnA.
  assert (MatrixAddOp_GPU_Compute bias_ (start (A :: B :: rest) al) =
          do top <- MatrixAddOpForwardCudaKernelLauncher
                      (fresh al (NumElements A)) (Z.of_nat (length (flat A)))
                      (flat A) (flat B) bias_;
          Done (written 0 top
                  (mkContext (A :: B :: rest)
                     (<[0%nat := mkTensor (shape A) (fresh al (NumElements A))]> ∅)
                     OK (taken al (NumElements A))))) as ->.
  { unfold MatrixAddOp_GPU_Compute, input. simpl.
    rewrite allocate_output_OK by done. simpl.
    unfold output_at. simpl. rewrite (lookup_insert_eq (M:=gmap nat)). simpl.
    by rewrite to_int_id, HlA by lia. }
  assert (length (fresh al (NumElements A)) = length (flat A)) as Hfresh
    by (unfold fresh; rewrite length_map, length_seq; lia).
  split; intros Hcmp.
  - rewrite forward_sweep_Done by (done || lia). simpl.
    unfold written. simpl. by rewrite (alter_insert_eq (M:=gmap nat)).
  - by rewrite forward_sweep_Crash by (done || lia).
Qed.
End Forward_GPU_edges.

Section Forward_CPU_batches.
Context {Dtype : Type} `{RealNumberType Dtype}.
Implicit Types (A B : Tensor Dtype) (al : Allocator Dtype).

Lemma forward_assign_step bias_ (ta tb : TensorMap4 Dtype) dims b r c d
    (spec init out : list Dtype) k x y :
  index4 (dims4 ta) b r c d = k -> index4 (dims4 tb) b r c d = k ->
  index4 dims b r c d = k -> 0 <= k ->
  data4 ta !! Z.to_nat k = Some x -> data4 tb !! Z.to_nat k = Some y ->
  spec !! Z.to_nat k = Some (add_with_bias bias_ x y) ->
  (length spec <= length init)%nat ->
  filled spec init k out ->
  exists out',
    forward_assign bias_ ta tb dims b r c d out = Done out' /\
    filled spec init (k + 1) out'.
Proof.
  intros Ha Hb Ho Hk Hx Hy Hv Hl Hout. unfold forward_assign.
  rewrite Ha, Hb, Ho.
  rewrite (load_Done _ _ _ Hk Hx), (load_Done _ _ _ Hk Hy). simpl.
  destruct (filled_store spec init k out _ Hk Hl Hv Hout) as [-> Hf]. eauto.
Qed.

(** The first [n0] batches of the nested loops, when all three buffers hold
    that many batches; the first size of neither view enters an offset. *)
Lemma forward_loops_prefix bias_ n0 d0 e0 d1 d2 d3 (xs ys init : list Dtype) :
  let L := n0 * d1 * d2 * d3 in
  0 <= n0 -> 0 <= d1 -> 0 <= d2 -> 0 <= d3 ->
  L <= Z.of_nat (length init) -> L <= Z.of_nat (length xs) ->
  L <= Z.of_nat (length ys) ->
  exists out,
    for_loop n0 (fun b =>
      for_loop d1 (fun r =>
        for_loop d2 (fun c =>
          for_loop d3 (fun d =>
            forward_assign bias_ (mkTensorMap4 (d0, d1, d2, d3) xs)
                           (mkTensorMap4 (e0, d1, d2, d3) ys)
                           (d0, d1, d2, d3) b r c d)))) init = Done out /\
    filled (take (Z.to_nat L) (sum_with_bias bias_ xs ys)) init L out.
Proof.
  intros L H0 H1 H2 H3 Hi Hx Hy.
  set (spec := take (Z.to_nat L) (sum_with_bias bias_ xs ys)).
  set (dims := (n0, d1, d2, d3)).
  assert (length spec <= length init)%nat as Hl
    by (unfold spec; rewrite length_take; lia).
  assert (index4 dims n0 0 0 0 = L) as HL by (unfold index4, dims, L; ring).
  rewrite <- HL.
  apply (for_loop_inv (fun b => filled spec init (index4 dims b 0 0 0)));
    [done|apply filled_start|].
  intros b t Hb Ht.
  replace (index4 dims (b + 1) 0 0 0) with (index4 dims b d1 0 0)
    by (unfold index4, dims; ring).
  apply (for_loop_inv (fun r => filled spec init (index4 dims b r 0 0))); [done|done|].
  intros r t1 Hr Ht1.
  replace (index4 dims b (r + 1) 0 0) with (index4 dims b r d2 0)
    by (unfold index4, dims; ring).
  apply (for_loop_inv (fun c => filled spec init (index4 dims b r c 0))); [done|done|].
  intros c t2 Hc Ht2.
  replace (index4 dims b r (c + 1) 0) with (index4 dims b r c d3)
    by (unfold index4, dims; ring).
  apply (for_loop_inv (fun d => filled spec init (index4 dims b r c d))); [done|done|].
  intros d t3 Hd Ht3.
  replace (index4 dims b r c (d + 1)) with (index4 dims b r c d + 1)
    by (unfold index4, dims; ring).
  pose proof (index4_range n0 d1 d2 d3 b r c d Hb Hr Hc Hd) as Hk.
  fold dims in Hk. fold L in Hk.
  destruct (lookup_lt_is_Some_2 xs (Z.to_nat (index4 dims b r c d))) as [x Hx'];
    [lia|].
  destruct (lookup_lt_is_Some_2 ys (Z.to_nat (index4 dims b r c d))) as [y Hy'];
    [lia|].
  apply (forward_assign_step _ _ _ _ _ _ _ _ _ _ _ _ x y); try done; try lia.
  unfold spec. rewrite lookup_take_lt by lia. by apply sum_with_bias_lookup.
Qed.

(** X5: the CPU forward kernel takes its loop bounds from [matrix_a] and
    never compares them with [matrix_b]'s sizes.  When [matrix_b] differs
    from [matrix_a] in the first size only, a larger [matrix_b] is accepted
    and its surplus batches ignored (status OK, the sum over the common
    batches), a smaller one is read behind its buffer. *)
Theorem forward_cpu_batch_mismatch bias_ A B rest al d0 e0 d1 d2 d3 :
  valid_tensor A -> valid_tensor B ->
  shape A = [d0; d1; d2; d3] -> shape B = [e0; d1; d2; d3] ->
  int_sized (shape A) -> NumElements A <= avail al ->
  (d0 <= e0 ->
   MatrixAddOp_Compute bias_ (start (A :: B :: rest) al) =
     Done (mkContext (A :: B :: rest) {[0%nat := forward_output bias_ A B]} OK
                     (taken al (NumElements A)))) /\
  (e0 < d0 -> 0 < d1 * d2 * d3 ->
   MatrixAddOp_Compute bias_ (start (A :: B :: rest) al) = Crash OutOfBounds).
Proof.
  intros [HA HlA] [HB HlB] HsA HsB Hint Hal.
  unfold NumElements in *. rewrite HsA in *. rewrite HsB in *.
  unfold int_sized in Hint.
  repeat match goal with
         | Hf : Forall _ (_ :: _) |- _ => apply Forall_cons in Hf; destruct Hf
         end.
  unfold num_elements in HlA, HlB, Hal. simpl in HlA, HlB, Hal.
  set (body := fun b : Z =>
      for_loop d1 (fun r =>
        for_loop d2 (fun c =>
          for_loop d3 (fun d =>
            forward_assign bias_ (mkTensorMap4 (d0, d1, d2, d3) (flat A))
                           (mkTensorMap4 (e0, d1, d2, d3) (flat B))
                           (d0, d1, d2, d3) b r c d)))).
  set (init := fresh al (num_elements [d0; d1; d2; d3])).
  assert (Z.of_nat (length init) = d0 * d1 * d2 * d3) as Hinit.
  { unfold init, fresh. rewrite length_map, length_seq.
    unfold num_elements. simpl. lia. }
  assert (MatrixAddOp_Compute bias_ (start (A :: B :: rest) al) =
          do out <- for_loop d0 body init;
          Done (written 0 out
                  (mkContext (A :: B :: rest)
                     (<[0%nat := mkTensor [d0; d1; d2; d3] init]> ∅)
                     OK (taken al (num_elements [d0; d1; d2; d3]))))) as ->.
  { unfold MatrixAddOp_Compute, input, tensor4. simpl.
    rewrite HsA, HsB. unfold dim_size. simpl.
    rewrite !to_int_id by lia.
    unfold AddDim.
    destruct (Z.ltb_spec d0 0); [lia|]. destruct (Z.ltb_spec d1 0); [lia|].
    destruct (Z.ltb_spec d2 0); [lia|]. destruct (Z.ltb_spec d3 0); [lia|]. simpl.
    rewrite allocate_output_OK by (unfold num_elements; simpl; lia). simpl.
    unfold output_at. simpl. rewrite (lookup_insert_eq (M:=gmap nat)). done. }
  assert (0 <= d1 * d2 * d3) as HP
    by (apply Z.mul_nonneg_nonneg; [apply Z.mul_nonneg_nonneg|]; lia).
  split.
  - intros Hle.
    pose proof (Z.mul_le_mono_nonneg_r d0 e0 (d1 * d2 * d3) HP Hle) as Hmono.
    destruct (forward_loops_prefix bias_ d0 d0 e0 d1 d2 d3 (flat A) (flat B) init)
      as (out & Hrun & Hout); try lia.
    fold body in Hrun. rewrite Hrun. simpl.
    assert (length (sum_with_bias bias_ (flat A) (flat B)) = length (flat A)) as Hl.
    { unfold sum_with_bias. rewrite length_zip_with. lia. }
    rewrite take_ge in Hout by lia.
    replace (d0 * d1 * d2 * d3)
      with (Z.of_nat (length (sum_with_bias bias_ (flat A) (flat B)))) in Hout by lia.
    apply filled_end in Hout.
    rewrite Hl, drop_ge in Hout by lia. rewrite app_nil_r in Hout. subst out.
    unfold written. simpl. rewrite (alter_insert_eq (M:=gmap nat)). simpl.
    unfold forward_output. rewrite HsA. done.
  - intros Hlt Hpos.
    pose proof (Z.mul_lt_mono_pos_r (d1 * d2 * d3) e0 d0 Hpos) as [Hmono _].
    specialize (Hmono Hlt).
    assert (0 < d1 /\ 0 < d2 /\ 0 < d3) as (P1 & P2 & P3) by nia.
    destruct (forward_loops_prefix bias_ e0 d0 e0 d1 d2 d3 (flat A) (flat B) init)
      as (out & Hrun & _); try lia.
    fold body in Hrun.
    rewrite (for_loop_crash d0 e0 body init out OutOfBounds); [done|lia|done|].
    unfold body.
    apply (for_loop_crash d1 0 _ out out); [lia|by apply for_loop_nonpos|].
    apply (for_loop_crash d2 0 _ out out); [lia|by apply for_loop_nonpos|].
    apply (for_loop_crash d3 0 _ out out); [lia|by apply for_loop_nonpos|].
    unfold forward_assign, index4. simpl.
    replace (((e0 * d1 + 0) * d2 + 0) * d3 + 0) with (e0 * (d1 * d2 * d3)) by ring.
    destruct (lookup_lt_is_Some_2 (flat A) (Z.to_nat (e0 * (d1 * d2 * d3))))
      as [x Hx]; [lia|].
    rewrite (load_Done _ _ x) by (done || lia). simpl.
    unfold load. destruct (Z.ltb_spec (e0 * (d1 * d2 * d3)) 0); [done|].
    rewrite lookup_ge_None_2 by lia. done.
Qed.
End Forward_CPU_batches.

Section Backward_edges.
Context {Dtype : Type} `{RealNumberType Dtype}.
Implicit Types (G A B : Tensor Dtype) (al : Allocator Dtype).

(** The fill loop with buffers of two lengths: the first write behind the
    shorter one is reached when the gradient is longer than it. *)
Lemma MatrixAddGradOp_fill_Crash_shorter (top ia ib : list Dtype) :
  (length ia < length top)%nat \/ (length ib < length top)%nat ->
  MatrixAddGradOp_fill (Z.of_nat (length top)) top (ia, ib) = Crash OutOfBounds.
Proof.
  intros Hlt. unfold MatrixAddGradOp_fill.
  set (L := Nat.min (length ia) (length ib)). set (spec := take L top).
  assert (length spec = L) as Hspec by (unfold spec; rewrite length_take; lia).
  destruct (for_loop_inv
              (fun i '(ga, gb) => filled spec ia i ga /\ filled spec ib i gb)
              (Z.of_nat L)
              (fun i '(ga, gb) =>
                 do x <- load top i; do ga <- store ga i x;
                 do y <- load top i; do gb <- store gb i y; Done (ga, gb))
              (ia, ib)) as ([ga gb] & Hrun & Hga & Hgb).
  - lia.
  - split; apply filled_start.
  - intros i [ga gb] Hi [Hga Hgb].
    destruct (lookup_lt_is_Some_2 top (Z.to_nat i)) as [x Hx]; [lia|].
    destruct (fill_step top spec ia ib i ga gb x) as (ga' & gb' & Hrun & Hf);
      try done; try lia.
    { unfold spec. rewrite lookup_take_lt by lia. done. }
    exists (ga', gb'). done.
  - eapply (for_loop_crash _ (Z.of_nat L)); [lia|exact Hrun|].
    destruct (lookup_lt_is_Some_2 top L) as [x Hx]; [lia|].
    rewrite (load_Done top _ x) by (rewrite ?Nat2Z.id; done || lia). cbn [bind].
    assert (length ga = length ia) as Hla
      by (apply (filled_length spec ia (Z.of_nat L) ga); [lia|lia|done]).
    assert (length gb = length ib) as Hlb
      by (apply (filled_length spec ib (Z.of_nat L) gb); [lia|lia|done]).
    destruct (decide (length ia <= length ib)%nat) as [Hmin|Hmin].
    + rewrite store_Crash; [done|lia].
    + rewrite store_Done by lia. cbn [bind].
      rewrite store_Crash; [done|]. lia.
Qed.

(** X6: the GPU gradient kernel gives [grad_matrix_a] the shape of
    [matrix_a] and [grad_matrix_b] the shape of [matrix_b], and zeroes
    neither.  When the gradient has no more elements than either input, both
    outputs start with the gradient and keep, behind it, what the allocated
    memory held; when it has more elements than one of them, the device loop
    writes outside that buffer. *)
Theorem backward_gpu_flat_contract G A B al :
  valid_tensor G -> valid_tensor A -> valid_tensor B ->
  NumElements G < 2 ^ 31 ->
  NumElements A + NumElements B <= avail al ->
  (NumElements G <= NumElements A -> NumElements G <= NumElements B ->
   MatrixAddGradOp_GPU_Compute (start [G; A; B] al) =
     Done (mkContext [G; A; B]
             (<[1%nat := mkTensor (shape B)
                  (flat G ++ drop (length (flat G))
                                  (fresh (taken al (NumElements A)) (NumElements B)))]>
                (<[0%nat := mkTensor (shape A)
                     (flat G ++ drop (length (flat G)) (fresh al (NumElements A)))]> ∅))
             OK (taken (taken al (NumElements A)) (NumElements B)))) /\
  (NumElements A < NumElements G \/ NumElements B < NumElements G ->
   MatrixAddGradOp_GPU_Compute (start [G; A; B] al) = Crash OutOfBounds).
Proof.
  intros HG HA HB Hint Hal. split.
  - intros HleA HleB. by apply MatrixAddGradOp_GPU_Compute_OK.
  - intros Hlt.
    destruct HG as [HG HlG]. destruct HA as [HA HlA]. destruct HB as [HB HlB].
    pose proof (num_elements_nonneg _ HG) as HnG. fold (NumElements G) in HnG.
    pose proof (num_elements_nonneg _ HA) as HnA. fold (NumElements A) in HnA.
    pose proof (num_elements_nonneg _ HB) as HnB. fold (NumElements B) in HnB.
    unfold MatrixAddGradOp_GPU_Compute, MatrixAddGradOp_GPU_allocate, input. simpl.
    rewrite allocate_output_OK by (simpl; unfold NumElements in *; lia). simpl.
    rewrite allocate_output_OK by (simpl; unfold NumElements in *; lia). simpl.
    unfold output_at. simpl.
    rewrite (lookup_insert_ne (M:=gmap nat)), !(lookup_insert_eq (M:=gmap nat)) by done.
    simpl.
    rewrite MatrixAddOpBackwardCudaKernelLauncher_fill.
    fold (NumElements G). rewrite to_int_id, <- HlG by lia.
    rewrite MatrixAddGradOp_fill_Crash_shorter; [done|].
    rewrite !length_map, !length_seq. unfold NumElements in *. lia.
Qed.

(** X7: where the gradient ends, the GPU gradient kernel shows memory it
    never wrote: the element of [grad_matrix_a] at an index behind the
    gradient is what the allocator's memory held at that place. *)
Theorem backward_gpu_exposes_memory G A B al context grad_matrix_a (i : nat) :
  valid_tensor G -> valid_tensor A -> valid_tensor B ->
  NumElements G < 2 ^ 31 ->
  NumElements G <= NumElements A -> NumElements G <= NumElements B ->
  NumElements A + NumElements B <= avail al ->
  MatrixAddGradOp_GPU_Compute (start [G; A; B] al) = Done context ->
  outputs context !! 0%nat = Some grad_matrix_a ->
  NumElements G <= Z.of_nat i < NumElements A ->
  flat grad_matrix_a !! i = Some (residue al (cursor al + i)%nat).
Proof.
  intros HG HA HB Hint HleA HleB Hal Hrun Hout Hi.
  rewrite MatrixAddGradOp_GPU_Compute_OK in Hrun by done.
  simplify_eq. simpl in Hout.
  rewrite (lookup_insert_ne (M:=gmap nat)), (lookup_insert_eq (M:=gmap nat)) in Hout
    by done.
  simplify_eq. simpl.
  destruct HG as [_ HlG].
  rewrite lookup_app_r by lia. rewrite lookup_drop.
  replace (length (flat G) + (i - length (flat G)))%nat with i by lia.
  unfold fresh. rewrite list_lookup_fmap, lookup_seq_lt by lia. done.
Qed.

(** X8: on a gradient and two inputs of one shape the CPU and the GPU
    gradient kernel end in the same context when both allocations succeed;
    for every allocator they end with the same status. *)
Theorem backward_cpu_gpu_agree G A B al :
  valid_tensor G -> valid_tensor A -> valid_tensor B ->
  shape G = shape A -> shape B = shape A ->
  NumElements G < 2 ^ 31 ->
  (2 * NumElements A <= avail al ->
   MatrixAddGradOp_Compute (start [G; A; B] al) =
   MatrixAddGradOp_GPU_Compute (start [G; A; B] al)) /\
  exec_map status (MatrixAddGradOp_Compute (start [G; A; B] al)) =
  exec_map status (MatrixAddGradOp_GPU_Compute (start [G; A; B] al)).
Proof.
  intros HG HA HB HsG HsB Hint.
  assert (NumElements G = NumElements A) as HnG by (unfold NumElements; by rewrite HsG).
  assert (NumElements B = NumElements A) as HnB by (unfold NumElements; by rewrite HsB).
  pose proof (num_elements_nonneg _ (proj1 HA)) as HnA. fold (NumElements A) in HnA.
  assert (2 * NumElements A <= avail al ->
          MatrixAddGradOp_Compute (start [G; A; B] al) =
          MatrixAddGradOp_GPU_Compute (start [G; A; B] al)) as Heq.
  { intros Hal.
    rewrite MatrixAddGradOp_Compute_OK, MatrixAddGradOp_GPU_Compute_OK by (done || lia).
    rewrite grad_output_same_shape by done.
    destruct HG as [_ HlG].
    rewrite !drop_ge
      by (unfold fresh; rewrite length_map, length_seq; lia).
    rewrite app_nil_r, HnB, HsB, <- HsG. by destruct G. }
  split; [done|].
  destruct (Z.le_gt_cases (2 * NumElements A) (avail al)) as [Hal|Hal].
  - by rewrite Heq.
  - destruct (MatrixAddGradOp_Compute_exhausted G A [B] al HA Hal) as (c & -> & Hs & _).
    simpl. rewrite Hs.
    unfold MatrixAddGradOp_GPU_Compute, MatrixAddGradOp_GPU_allocate, input. simpl.
    destruct (Z.le_gt_cases (NumElements A) (avail al)) as [Hfst|Hfst].
    + rewrite allocate_output_OK by done. simpl.
      rewrite allocate_output_exhausted by (simpl; unfold NumElements in *; lia).
      done.
    + by rewrite allocate_output_exhausted.
Qed.

(** X9: the three ways the allocations of the CPU gradient kernel can go,
    whatever the gradient is.  Without room for one output the kernel returns
    ResourceExhausted with no output and the allocator untouched; with room
    for one but not two it returns ResourceExhausted with output 0 in place,
    zeroed, its memory taken, and no output 1. *)
Theorem backward_cpu_allocation_failures G A rest al :
  valid_tensor A ->
  (avail al < NumElements A ->
   MatrixAddGradOp_Compute (start (G :: A :: rest) al) =
     Done (mkContext (G :: A :: rest) ∅ ResourceExhausted al)) /\
  (NumElements A <= avail al < 2 * NumElements A ->
   MatrixAddGradOp_Compute (start (G :: A :: rest) al) =
     Done (mkContext (G :: A :: rest) {[0%nat := zero_output A]}
                     ResourceExhausted (taken al (NumElements A)))).
Proof.
  intros [HA HlA].
  pose proof (num_elements_nonneg _ HA) as Hn. fold (NumElements A) in Hn.
  unfold MatrixAddGradOp_Compute, MatrixAddGradOp_allocate, input. simpl.
  split; intros Hal.
  - by rewrite allocate_output_exhausted.
  - rewrite allocate_output_OK by (simpl; unfold NumElements in *; lia). simpl.
    rewrite allocate_output_exhausted by (simpl; unfold NumElements in *; lia).
    simpl. unfold CtxFailure, setZero. simpl.
    rewrite (alter_insert_eq (M:=gmap nat)). simpl.
    by rewrite length_map, length_seq.
Qed.
End Backward_edges.

(* ================================================================== *)
(** * Further properties of shape inference                            *)
(* ================================================================== *)

Lemma merge_dim_Some d0 d1 :
  is_Some (merge_dim d0 d1) <-> compatible_dim d0 d1.
Proof.
  unfold merge_dim, compatible_dim.
  destruct (Z.eqb_spec d0 kUnknownDim); [by split; eauto|].
  destruct (Z.eqb_spec d1 kUnknownDim); [by split; eauto|].
  destruct (Z.eqb_spec d0 d1); [by split; eauto|].
  split; [by intros [? ?]|]. intros [?|[?|?]]; done.
Qed.

Lemma merge_dims_Some ds0 ds1 :
  is_Some (merge_dims ds0 ds1) <-> Forall2 compatible_dim ds0 ds1.
Proof.
  revert ds1. induction ds0 as [|d0 ds0 IH]; intros [|d1 ds1]; simpl.
  - split; [constructor|eauto].
  - split; [by intros [? ?]|inversion 1].
  - split; [by intros [? ?]|inversion 1].
  - rewrite Forall2_cons, <- IH, <- merge_dim_Some.
    destruct (merge_dim d0 d1), (merge_dims ds0 ds1); split;
      try (by intros [? ?]); try (by intros [[? ?] [? ?]]); eauto.
Qed.

Lemma compatible_dim_sym d0 d1 : compatible_dim d0 d1 -> compatible_dim d1 d0.
Proof. unfold compatible_dim. intros [?|[?|?]]; auto. Qed.

Lemma accepted_sym s0 s1 : accepted s0 s1 -> accepted s1 s0.
Proof.
  unfold accepted, compatible_shapes. intros (H0 & H1 & Hc).
  split; [done|]. split; [done|].
  destruct s0, s1; try done.
  apply Forall2_flip. eapply Forall2_impl; [exact Hc|].
  intros ? ?. apply compatible_dim_sym.
Qed.

(** The shape function by cases on its two input shapes. *)
Lemma shape_fn_cases (c : InferenceContext) :
  (accepted (ic_input c 0) (ic_input c 1) ->
   MatrixAdd_shape_fn c =
     (OK, set_output 0 (MakeShape [Dim (ic_input c 0) 0; Dim (ic_input c 0) 1;
                                   Dim (ic_input c 0) 2; Dim (ic_input c 0) 3]) c)) /\
  (~ accepted (ic_input c 0) (ic_input c 1) ->
   MatrixAdd_shape_fn c = (InvalidArgument, c)).
Proof.
  unfold accepted, MatrixAdd_shape_fn, WithRank, Merge.
  destruct (ic_input c 0) as [|ds0], (ic_input c 1) as [|ds1]; simpl.
  - split; [done|]. intros Hn. by destruct Hn.
  - destruct (bool_decide_reflect (length ds1 = 4%nat)); simpl.
    + split; [done|]. intros Hn. by destruct Hn.
    + split; [by intros (_ & ? & _)|done].
  - destruct (bool_decide_reflect (length ds0 = 4%nat)); simpl.
    + split; [done|]. intros Hn. by destruct Hn.
    + split; [by intros (? & _)|done].
  - destruct (bool_decide_reflect (length ds0 = 4%nat)); simpl;
      [|split; [by intros (? & _)|done]].
    destruct (bool_decide_reflect (length ds1 = 4%nat)); simpl;
      [|split; [by intros (_ & ? & _)|done]].
    pose proof (merge_dims_Some ds0 ds1) as Hm.
    destruct (merge_dims ds0 ds1) as [ds|]; simpl.
    + split; [done|]. intros Hn. destruct Hn. split; [done|]. split; [done|].
      apply Hm. eauto.
    + split; [|done]. intros (_ & _ & Hc). apply Hm in Hc. by destruct Hc.
Qed.

(** X10: the two outcomes of the shape function of "MatrixAdd", for every
    inference context.  It accepts exactly the inputs that can be two equal
    rank-4 shapes: each of unknown rank or of rank 4, and, when both ranks are
    known, compatible size by size (an unknown size is compatible with every
    size).  Then it sets output 0 to the rank-4 shape made of the four sizes
    of input 0 and touches nothing else; otherwise it returns
    InvalidArgument and leaves the context as it was. *)
Theorem shape_fn_outcomes (c : InferenceContext) :
  (accepted (ic_input c 0) (ic_input c 1) ->
   MatrixAdd_shape_fn c =
     (OK, set_output 0 (MakeShape [Dim (ic_input c 0) 0; Dim (ic_input c 0) 1;
                                   Dim (ic_input c 0) 2; Dim (ic_input c 0) 3]) c)) /\
  (~ accepted (ic_input c 0) (ic_input c 1) ->
   MatrixAdd_shape_fn c = (InvalidArgument, c)).
Proof. exact (shape_fn_cases c). Qed.

Lemma shape_fn_status (c : InferenceContext) :
  fst (MatrixAdd_shape_fn c) =
    if decide (accepted (ic_input c 0) (ic_input c 1)) then OK else InvalidArgument.
Proof.
  destruct (shape_fn_cases c) as [Hyes Hno].
  case_decide as Hacc.
  - by rewrite (Hyes Hacc).
  - by rewrite (Hno Hacc).
Qed.

(** X11: the shape function accepts two input shapes in one order exactly
    when it accepts them in the other. *)
Theorem shape_fn_status_symmetric (s0 s1 : ShapeHandle) (out0 out1 : gmap nat ShapeHandle) :
  fst (MatrixAdd_shape_fn (mkInference [s0; s1] out0)) =
  fst (MatrixAdd_shape_fn (mkInference [s1; s0] out1)).
Proof.
  rewrite !shape_fn_status. unfold ic_input. simpl.
  destruct (decide (accepted s0 s1)) as [Ha|Ha], (decide (accepted s1 s0)) as [Hb|Hb];
    try done.
  - destruct Hb. by apply accepted_sym.
  - destruct Ha. by apply accepted_sym.
Qed.

(** X12: when input 0 is of known rank and the shape function succeeds, it
    does what [UnchangedShape] does: output 0 is input 0 as it stands, also
    where [matrix_b] knows a size that [matrix_a] does not. *)
Theorem shape_fn_is_unchanged_shape (c : InferenceContext) ds :
  ic_input c 0 = MakeShape ds ->
  fst (MatrixAdd_shape_fn c) = OK ->
  MatrixAdd_shape_fn c = UnchangedShape c.
Proof.
  intros Hin Hok. rewrite shape_fn_status in Hok.
  destruct (decide (accepted (ic_input c 0) (ic_input c 1))) as [Hacc|]; [|done].
  rewrite (proj1 (shape_fn_cases c) Hacc). unfold UnchangedShape.
  destruct Hacc as (Hr & _). rewrite Hin in *. simpl in *.
  destruct ds as [|d0 [|d1 [|d2 [|d3 [|]]]]]; done.
Qed.

(** X13: the kernel table holds exactly one kernel for each of the two
    operator names on each device for each of the three element types, and
    none under any other name. *)
Theorem one_kernel_per_combination name dev ty :
  registrations name dev ty =
    if decide (name = "MatrixAdd"%string \/ name = "MatrixAddGrad"%string)
    then 1%nat else 0%nat.
Proof.
  destruct (decide (name = "MatrixAdd"%string)) as [->|H1].
  { destruct dev, ty; vm_compute; reflexivity. }
  destruct (decide (name = "MatrixAddGrad"%string)) as [->|H2].
  { destruct dev, ty; vm_compute; reflexivity. }
  rewrite decide_False by (intros [?|?]; done).
  unfold registrations, kernel_registry, REGISTER_MYCOPY_KERNELS. cbn [app].
  rewrite !filter_cons_False by (intros ?; simplify_eq).
  done.
Qed.

(* ================================================================== *)
(** * Further properties of the element arithmetic                     *)
(* ================================================================== *)

Lemma digits2_pos_bound (m : positive) (k : Z) :
  0 <= k -> Z.pos m < 2 ^ k -> Z.pos (digits2_pos m) <= k.
Proof.
  revert k. induction m as [m IH|m IH|]; intros k Hk Hm; simpl.
  - assert (0 < k) by (destruct (Z.eq_dec k 0) as [->|]; [simpl in Hm; lia|lia]).
    replace k with (Z.succ (k - 1)) in Hm by lia.
    rewrite Z.pow_succ_r in Hm by lia.
    specialize (IH (k - 1)). lia.
  - assert (0 < k) by (destruct (Z.eq_dec k 0) as [->|]; [simpl in Hm; lia|lia]).
    replace k with (Z.succ (k - 1)) in Hm by lia.
    rewrite Z.pow_succ_r in Hm by lia.
    specialize (IH (k - 1)). lia.
  - destruct (Z.eq_dec k 0) as [->|]; [simpl in Hm; lia|lia].
Qed.

Lemma iter_xO_value (m p : positive) :
  Z.pos (Pos.iter xO m p) = Z.pos m * 2 ^ Z.pos p.
Proof.
  induction p as [|p IH] using Pos.peano_ind.
  - simpl. lia.
  - rewrite Pos.iter_succ. rewrite Pos2Z.inj_succ, Z.pow_succ_r by lia.
    change (Z.pos (Pos.iter xO m p)~0) with (2 * Z.pos (Pos.iter xO m p)). lia.
Qed.

Lemma iter_xO_digits (m p : positive) :
  digits2_pos (Pos.iter xO m p) = (digits2_pos m + p)%positive.
Proof.
  induction p as [|p IH] using Pos.peano_ind.
  - simpl. lia.
  - rewrite Pos.iter_succ. simpl. rewrite IH. lia.
Qed.

(** A 24 bit mantissa with an exponent in range is a binary32 number as it
    stands. *)
Lemma binary_round_aux_exact s (mz : positive) ez :
  Z.pos (digits2_pos mz) = 24 -> -149 <= ez <= 104 ->
  binary_round_aux 24 128 s (Z.pos mz) ez loc_Exact = S754_finite s mz ez.
Proof.
  intros Hd He. unfold binary_round_aux, shr_fexp, fexp, emin. simpl Zdigits2.
  rewrite Hd.
  replace (Z.max (24 + ez - 24) (3 - 128 - 24) - ez) with 0 by lia.
  simpl. rewrite Hd.
  replace (Z.max (24 + ez - 24) (3 - 128 - 24) - ez) with 0 by lia.
  simpl. destruct (Z.leb_spec ez (128 - 24)); [done|lia].
Qed.

(** An integer below 2^24 is a binary32 number: rounding it changes
    nothing. *)
Lemma binary_round_small s (m : positive) :
  Z.pos m < 2 ^ 24 ->
  exists mz ez,
    binary_round 24 128 s m 0 = S754_finite s mz ez /\
    Z.shiftl (Z.pos mz) ez = Z.pos m.
Proof.
  intros Hm. pose proof (digits2_pos_bound m 24 ltac:(lia) Hm) as Hd.
  unfold binary_round, shl_align, fexp, emin.
  replace (Z.max (Z.pos (digits2_pos m) + 0 - 24) (3 - 128 - 24) - 0)
    with (Z.pos (digits2_pos m) - 24) by lia.
  destruct (Z.pos (digits2_pos m) - 24) as [|q|q] eqn:Hq; try lia.
  - exists m, 0. split; [|done].
    replace (Z.max (Z.pos (digits2_pos m) + 0 - 24) (3 - 128 - 24)) with 0 by lia.
    apply binary_round_aux_exact; lia.
  - exists (Pos.iter xO m q), (Z.neg q).
    replace (Z.max (Z.pos (digits2_pos m) + 0 - 24) (3 - 128 - 24)) with (Z.neg q) by lia.
    split.
    + apply binary_round_aux_exact; [|lia].
      rewrite iter_xO_digits. lia.
    + change (Z.neg q) with (- Z.pos q).
      rewrite Z.shiftl_opp_r, Z.shiftr_div_pow2, iter_xO_value by lia.
      apply Z.div_mul. lia.
Qed.

Lemma int_to_float_finite_or_zero z :
  - 2 ^ 24 < z < 2 ^ 24 ->
  z = 0 /\ int_to_float z = Float (S754_zero false) \/
  exists s mz ez, int_to_float z = Float (S754_finite s mz ez) /\
                  cond_Zopp s (Z.shiftl (Z.pos mz) ez) = z.
Proof.
  intros Hz. unfold int_to_float, binary_normalize.
  destruct z as [|m|m].
  - by left.
  - right. destruct (binary_round_small false m) as (mz & ez & -> & Hv); [lia|].
    exists false, mz, ez. by rewrite <- Hv.
  - right. destruct (binary_round_small true m) as (mz & ez & -> & Hv); [lia|].
    exists true, mz, ez. split; [done|]. simpl. by rewrite Hv.
Qed.

(** [int] to [float] and back is the identity below 2^24 in magnitude, and
    adding a zero bias in between changes nothing. *)
Lemma int_float_round_trip z s :
  - 2 ^ 24 < z < 2 ^ 24 ->
  float_to_int (int_to_float z) = z /\
  float_to_int (float_add (int_to_float z) (Float (S754_zero s))) = z.
Proof.
  intros Hz.
  assert (forall t, - 2 ^ 24 < t < 2 ^ 24 ->
            (if (INT_MIN <=? t) && (t <=? INT_MAX) then t else INT_MIN) = t) as Hin.
  { intros t Ht. unfold INT_MIN, INT_MAX.
    destruct (Z.leb_spec (- 2 ^ 31) t); [|lia].
    destruct (Z.leb_spec t (2 ^ 31 - 1)); [done|lia]. }
  destruct (int_to_float_finite_or_zero z Hz)
    as [[-> ->]|(sz & mz & ez & -> & Hv)].
  - split; [done|]. by destruct s.
  - unfold float_to_int, float_add. simpl. rewrite Hv. by rewrite Hin.
Qed.

Lemma zip_with_pointwise {X Y} (f g : X -> X -> Y) (xs ys : list X) :
  (forall i x y, xs !! i = Some x -> ys !! i = Some y -> f x y = g x y) ->
  zip_with f xs ys = zip_with g xs ys.
Proof.
  revert ys. induction xs as [|x xs IH]; intros [|y ys] Hp; simpl; try done.
  f_equal.
  - by apply (Hp 0%nat).
  - apply IH. intros i. apply (Hp (S i)).
Qed.

(** X14: with [int] elements and a zero bias the CPU forward kernel gives
    the exact sums as long as every sum is below 2^24 in magnitude, the range
    in which [float] holds every integer. *)
Theorem int_forward_exact_zero_bias (A B : Tensor Z) (al : Allocator Z) s :
  valid_inputs A B ->
  NumElements A <= avail al ->
  (forall i x y, flat A !! i = Some x -> flat B !! i = Some y ->
                 - 2 ^ 24 < x + y < 2 ^ 24) ->
  MatrixAddOp_Compute (Float (S754_zero s)) (start [A; B] al) =
    Done (mkContext [A; B]
            {[0%nat := mkTensor (shape A) (zip_with Z.add (flat A) (flat B))]} OK
            (taken al (NumElements A))).
Proof.
  intros Hv Hal Hsmall.
  rewrite MatrixAddOp_Compute_OK by done.
  unfold forward_output, sum_with_bias. do 4 f_equal.
  apply zip_with_pointwise. intros i x y Hx Hy.
  specialize (Hsmall i x y Hx Hy).
  unfold add_with_bias. simpl. unfold int_add.
  assert (to_int (x + y) = x + y) as ->.
  { unfold to_int. rewrite Z.mod_small; lia. }
  by apply int_float_round_trip.
Qed.

Lemma SFadd_comm prec emax x y : SFadd prec emax x y = SFadd prec emax y x.
Proof.
  destruct x as [sx|sx| |sx mx ex], y as [sy|sy| |sy my ey]; simpl;
    try (by destruct sx, sy); try done.
  by rewrite Z.min_comm, Z.add_comm.
Qed.

Section Exchange.
Context {Dtype : Type} `{RealNumberType Dtype}.
Hypothesis dt_add_comm : forall x y : Dtype, dt_add x y = dt_add y x.

Lemma sum_with_bias_comm bias_ (xs ys : list Dtype) :
  sum_with_bias bias_ xs ys = sum_with_bias bias_ ys xs.
Proof.
  unfold sum_with_bias. revert ys.
  induction xs as [|x xs IH]; intros [|y ys]; simpl; try done.
  unfold add_with_bias at 1 3. by rewrite dt_add_comm, IH.
Qed.

Lemma inputs_exchangeable_of_comm : inputs_exchangeable Dtype.
Proof.
  intros bias_ A B al Hv.
  assert (valid_inputs B A) as Hv'.
  { destruct Hv as (HA & HB & Hr & Hs & Hi).
    repeat split; try apply HA; try apply HB; by rewrite ?Hs. }
  assert (NumElements B = NumElements A) as Hn.
  { unfold NumElements. by rewrite (proj1 (proj2 (proj2 (proj2 Hv)))). }
  destruct (Z.le_gt_cases (NumElements A) (avail al)) as [Hal|Hal].
  - rewrite !MatrixAddOp_Compute_OK by (done || lia). simpl.
    unfold forward_output.
    rewrite (proj1 (proj2 (proj2 (proj2 Hv)))).
    by rewrite sum_with_bias_comm.
  - by rewrite !MatrixAddOp_Compute_exhausted by (done || lia).
Qed.
End Exchange.

(** X15: the forward operator is symmetric in its two inputs for each of the
    three element types: on valid inputs of one rank-4 shape the CPU kernel
    gives the same outputs for [(A, B)] and for [(B, A)]. *)
Theorem forward_inputs_exchangeable :
  inputs_exchangeable Z /\ inputs_exchangeable float /\ inputs_exchangeable double.
Proof.
  split; [|split]; apply inputs_exchangeable_of_comm.
  - intros x y. simpl. unfold int_add. by rewrite Z.add_comm.
  - intros x y. simpl. unfold float_add. by rewrite SFadd_comm.
  - intros x y. simpl. unfold double_add. by rewrite SFadd_comm.
Qed.

(* ================================================================== *)
(** * Tensors without elements                                         *)
(* ================================================================== *)

(** X16: on tensors without elements both CPU kernels succeed with any
    allocator, also one with no memory left: the outputs are tensors of the
    input shape without elements and the allocator keeps what it had. *)
Theorem kernels_on_empty_tensors `{RealNumberType Dtype} bias_
    (A B G : Tensor Dtype) (al : Allocator Dtype) :
  valid_inputs A B -> valid_tensor G -> shape G = shape A ->
  NumElements A = 0 -> 0 <= avail al ->
  (exists context,
     MatrixAddOp_Compute bias_ (start [A; B] al) = Done context /\
     status context = OK /\
     outputs context = {[0%nat := mkTensor (shape A) []]} /\
     avail (allocator context) = avail al) /\
  (exists context,
     MatrixAddGradOp_Compute (start [G; A; B] al) = Done context /\
     status context = OK /\
     outputs context =
       <[1%nat := mkTensor (shape A) []]> (<[0%nat := mkTensor (shape A) []]> ∅) /\
     avail (allocator context) = avail al).
Proof.
  intros Hv HG Hsh Hzero Hal.
  assert (valid_tensor A) as HA by apply Hv.
  assert (flat A = []) as HfA.
  { destruct HA as [_ Hl]. rewrite Hzero in Hl. apply nil_length_inv. lia. }
  assert (flat G = []) as HfG.
  { destruct HG as [_ Hl]. unfold NumElements in *. rewrite Hsh, Hzero in Hl.
    apply nil_length_inv. lia. }
  split.
  - rewrite MatrixAddOp_Compute_OK by (done || lia).
    eexists. split; [done|]. simpl. split; [done|]. split; [|lia].
    unfold forward_output, sum_with_bias. by rewrite HfA.
  - rewrite MatrixAddGradOp_Compute_OK; try done; try lia.
    + eexists. split; [done|]. simpl. split; [done|]. split; [|lia].
      unfold grad_output, zeros. rewrite HfG, Hzero. done.
    + unfold NumElements in *. rewrite Hsh. lia.
    + unfold NumElements in *. rewrite Hsh. lia.
Qed.

(* ================================================================== *)
(** * The further theorems at concrete inputs                          *)
(* ================================================================== *)

Lemma wB_valid : valid_tensor wB.
Proof. solve_valid. Defined.

Lemma wB2_valid : valid_tensor wB2.
Proof. solve_valid. Defined.

Lemma wG2_valid : valid_tensor wG2.
Proof. solve_valid. Defined.

Lemma wR3_valid : valid_tensor wR3.
Proof. solve_valid. Defined.

Lemma forward_cpu_rank_check_witness :
  MatrixAddOp_Compute (int_to_float 1) (start [wR3; wR3] wal) = Crash CheckFailure.
Proof.
  apply (forward_cpu_rank_check (int_to_float 1) wR3 wR3 [] wal).
  left. vm_compute. discriminate.
Defined.

Lemma forward_cpu_size_check_witness :
  valid_tensor wHuge /\
  MatrixAddOp_Compute (int_to_float 1) (start [wHuge; wHuge] wal) = Crash CheckFailure.
Proof.
  split; [solve_valid|].
  apply (forward_cpu_size_check (int_to_float 1) wHuge wHuge [] wal
           2147483648 0 1 1); [reflexivity|reflexivity|].
  left. vm_compute. reflexivity.
Defined.

Lemma kernels_only_allocation_fails_witness :
  exists c,
    MatrixAddGradOp_Compute (start [wG; wA; wB] (mkAllocator 4 (fun _ => 7) 0)) = Done c /\
    inputs c = [wG; wA; wB] /\ (status c = OK \/ status c = ResourceExhausted).
Proof.
  eexists. split; [vm_compute; reflexivity|].
  apply (proj1 (proj2 (proj2 (kernels_only_allocation_fails (int_to_float 1))))
           [wG; wA; wB] (mkAllocator 4 (fun _ => 7) 0)).
  vm_compute. reflexivity.
Defined.

Lemma forward_gpu_flat_contract_witness :
  MatrixAddOp_GPU_Compute (int_to_float 1) (start [wR3; wB2] wal) =
    Done (mkContext [wR3; wB2]
            {[0%nat := forward_output (int_to_float 1) wR3 wB2]} OK
            (taken wal (NumElements wR3))) /\
  MatrixAddOp_GPU_Compute (int_to_float 1) (start [wB2; wR3] wal) = Crash OutOfBounds.
Proof.
  split.
  - apply (forward_gpu_flat_contract (int_to_float 1) wR3 wB2 [] wal
             wR3_valid wB2_valid); vm_compute; (reflexivity || discriminate).
  - apply (forward_gpu_flat_contract (int_to_float 1) wB2 wR3 [] wal
             wB2_valid wR3_valid); vm_compute; (reflexivity || discriminate).
Defined.

Lemma forward_cpu_batch_mismatch_witness :
  MatrixAddOp_Compute (int_to_float 1) (start [wA; wB2] wal) =
    Done (mkContext [wA; wB2]
            {[0%nat := forward_output (int_to_float 1) wA wB2]} OK
            (taken wal (NumElements wA))) /\
  MatrixAddOp_Compute (int_to_float 1) (start [wB2; wA] wal) = Crash OutOfBounds.
Proof.
  split.
  - apply (forward_cpu_batch_mismatch (int_to_float 1) wA wB2 [] wal 1 2 1 1 3
             wA_valid wB2_valid);
      try reflexivity; try solve_valid; vm_compute; discriminate.
  - apply (forward_cpu_batch_mismatch (int_to_float 1) wB2 wA [] wal 2 1 1 1 3
             wB2_valid wA_valid);
      try reflexivity; try solve_valid; vm_compute; (reflexivity || discriminate).
Defined.

Lemma backward_gpu_flat_contract_witness :
  MatrixAddGradOp_GPU_Compute (start [wB2; wA; wB2] wal) = Crash OutOfBounds.
Proof.
  apply (backward_gpu_flat_contract wB2 wA wB2 wal wB2_valid wA_valid wB2_valid);
    [vm_compute; reflexivity|vm_compute; discriminate|].
  left. vm_compute. reflexivity.
Defined.

Lemma backward_gpu_exposes_memory_witness :
  exists context grad_matrix_a,
    MatrixAddGradOp_GPU_Compute (start [wG2; wA; wB] wal) = Done context /\
    outputs context !! 0%nat = Some grad_matrix_a /\
    flat grad_matrix_a !! 2%nat = Some (residue wal (cursor wal + 2)%nat).
Proof.
  eexists _, _. split; [vm_compute; reflexivity|]. split; [vm_compute; reflexivity|].
  eapply (backward_gpu_exposes_memory wG2 wA wB wal _ _ 2
            wG2_valid wA_valid wB_valid);
    vm_compute;
    first [reflexivity | discriminate | split; [discriminate|reflexivity]].
Defined.

Lemma backward_cpu_gpu_agree_witness :
  MatrixAddGradOp_Compute (start [wG; wA; wB] wal) =
  MatrixAddGradOp_GPU_Compute (start [wG; wA; wB] wal).
Proof.
  apply (backward_cpu_gpu_agree wG wA wB wal wG_valid wA_valid wB_valid);
    vm_compute; (reflexivity || discriminate).
Defined.

Lemma backward_cpu_allocation_failures_witness :
  MatrixAddGradOp_Compute (start [wG; wA; wB] (mkAllocator 4 (fun _ => 7) 0)) =
    Done (mkContext [wG; wA; wB] {[0%nat := zero_output wA]} ResourceExhausted
                    (taken (mkAllocator 4 (fun _ => 7) 0) (NumElements wA))).
Proof.
  apply (backward_cpu_allocation_failures wG wA [wB] (mkAllocator 4 (fun _ => 7) 0)
           wA_valid).
  vm_compute. split; [discriminate|reflexivity].
Defined.

Lemma shape_fn_is_unchanged_shape_witness :
  MatrixAdd_shape_fn (mkInference [MakeShape [-1; 3; 4; 5]; MakeShape [2; 3; 4; 5]] ∅) =
  UnchangedShape (mkInference [MakeShape [-1; 3; 4; 5]; MakeShape [2; 3; 4; 5]] ∅).
Proof.
  apply (shape_fn_is_unchanged_shape _ [-1; 3; 4; 5]); reflexivity.
Defined.

Lemma int_forward_exact_zero_bias_witness :
  MatrixAddOp_Compute (Float (S754_zero false)) (start [wA; wB] wal) =
    Done (mkContext [wA; wB]
            {[0%nat := mkTensor [1; 1; 1; 3] [11; 22; 33]]} OK
            (taken wal (NumElements wA))).
Proof.
  apply (int_forward_exact_zero_bias wA wB wal false wA_wB_valid);
    [vm_compute; discriminate|].
  intros [|[|[|i]]] x y Hx Hy; simpl in Hx, Hy; simplify_eq; lia.
Defined.

Lemma wE_valid : valid_inputs wE wE.
Proof. solve_valid. Defined.

Lemma kernels_on_empty_tensors_witness :
  exists context,
    MatrixAddOp_Compute (int_to_float 1) (start [wE; wE] (mkAllocator 0 (fun _ => 7) 0))
      = Done context /\
    status context = OK /\
    outputs context = {[0%nat := mkTensor (shape wE) []]} /\
    avail (allocator context) = 0.
Proof.
  destruct (kernels_on_empty_tensors (int_to_float 1) wE wE wE
              (mkAllocator 0 (fun _ => 7) 0) wE_valid (proj1 wE_valid) eq_refl)
    as [Hforward _]; [reflexivity|vm_compute; discriminate|].
  exact Hforward.
Defined.
